(** * Hybrid chat service: response routing policy

    Shallow embedding of [src/lib/hybrid-chat-service.ts]
    ([HybridChatService.sendMessage], [isCustomerSupportQuery],
    [healthCheck], [getModelStatus]), of its two clients ([ApiService]
    of [lib/api.ts], [GeminiApiService] of [lib/gemini-api.ts]), of the
    relay [app/api/gemini/route.ts], of the voice selection of
    [lib/text-to-speech.ts] with the locale mappings, and of the status
    card [components/connection-status.tsx].

    A JavaScript string is modelled as [String.string]; a JavaScript
    number as a primitive (IEEE 754 binary64) float; an optional
    property [p?: T] as [option T].  The two backend clients, the clock,
    the random source and the console are effects: every effect is
    recorded in a history of events, and what the outside world answers
    is given by an environment that sees the history so far. *)

From Stdlib Require Import List String Ascii Bool Arith Lia Permutation Sorted.
From Stdlib Require Import Floats DecimalString.
Import ListNotations.

Local Open Scope list_scope.
Local Open Scope string_scope.

(** ** JavaScript strings *)

Module JsString.

(** [String.prototype.toLowerCase], on the ASCII letters.  Code units
    outside [A-Z] are left as they are; the only non-ASCII characters
    whose lower case contains an ASCII letter are U+212A (to [k]) and
    U+0130 (to [i] followed by U+0307), and no support keyword
    contains [k], nor an [i] in last position. *)
Definition lower_ascii (c : ascii) : ascii :=
  let n := nat_of_ascii c in
  if ((65 <=? n) && (n <=? 90))%nat then ascii_of_nat (n + 32) else c.

Fixpoint toLowerCase (s : string) : string :=
  match s with
  | EmptyString => EmptyString
  | String c s' => String (lower_ascii c) (toLowerCase s')
  end.

(** [s.startsWith(k)] *)
Fixpoint startsWith (s k : string) : bool :=
  match k, s with
  | EmptyString, _ => true
  | String _ _, EmptyString => false
  | String a k', String b s' => Ascii.eqb a b && startsWith s' k'
  end.

(** [s.includes(k)]: [k] occurs in [s] at some position. *)
Fixpoint includes (s k : string) : bool :=
  startsWith s k ||
  match s with
  | EmptyString => false
  | String _ s' => includes s' k
  end.

(** [s.substring(n)]: [s] without its first [n] code units. *)
Fixpoint substring_from (n : nat) (s : string) : string :=
  match n, s with
  | O, _ => s
  | S _, EmptyString => EmptyString
  | S n', String _ s' => substring_from n' s'
  end.

(** Truthiness of a string value: only the empty string is falsy. *)
Definition truthy (s : string) : bool :=
  match s with
  | EmptyString => false
  | String _ _ => true
  end.

(** [k] is a substring of [s]. *)
Definition Substring (k s : string) : Prop :=
  exists pre post, s = pre ++ k ++ post.

End JsString.

(** ** Data model *)

(** A JavaScript number. *)
Definition number := float.

(** [status: "success" | "error"] *)
Inductive Status := Success | Error.

(** [model_type?: "basic" | "enhanced"] *)
Inductive ModelType := Basic | Enhanced.

(** [source: "dataset" | "gemini"] *)
Inductive Source := Dataset | Gemini.

(** A thrown value: an [Error] object with its [name] and [message],
    or any other value. *)
Inductive Thrown :=
| ThrownError (name msg : string)
| ThrownValue (v : string).

(** The result of running code that may throw, and of awaiting a
    promise: it is rejected with the thrown value or fulfilled. *)
Inductive Outcome (A : Type) :=
| Rejected (e : Thrown)
| Fulfilled (a : A).
Arguments Rejected {A} e.
Arguments Fulfilled {A} a.

(** [interface ApiResponse<T = any>] *)
Record ApiResponse (T : Type) := mkApiResponse {
  status : Status;
  message : option string;
  data : option T;
  timestamp : option string
}.
Arguments mkApiResponse {T}.
Arguments status {T}.
Arguments message {T}.
Arguments data {T}.
Arguments timestamp {T}.

(** [interface HybridChatRequest] *)
Record HybridChatRequest := mkHybridChatRequest {
  hreq_message : string;
  hreq_session_id : option string;
  hreq_use_dataset : option bool;
  hreq_model_type : option ModelType
}.

(** [interface HybridChatResponse] *)
Record HybridChatResponse := mkHybridChatResponse {
  response : string;
  source : Source;
  session_id : string;
  response_time : number;
  hres_timestamp : string;
  confidence : option number
}.

(** [interface ChatRequest], the body of the dataset backend's [/chat]. *)
Record ChatRequest := mkChatRequest {
  creq_message : string;
  creq_model_type : option ModelType;
  creq_session_id : option string
}.

(** [interface ChatResponse], what the dataset backend answers. *)
Record ChatResponse := mkChatResponse {
  cres_confidence : option number;
  cres_response : string;
  cres_session_id : string;
  cres_model_type : string;
  cres_response_time : number;
  cres_timestamp : string
}.

(** The request of [geminiApiService.sendMessage] as the router builds
    it, [{ message, session_id }]; the [GeminiChatRequest] interface of
    [lib/gemini-api.ts] also allows a [target_language], which the
    router never sets. *)
Record GeminiChatRequest := mkGeminiChatRequest {
  greq_message : string;
  greq_session_id : string
}.

(** [interface GeminiChatResponse] of [lib/gemini-api.ts]; the router
    reads its [response] only. *)
Record GeminiChatResponse := mkGeminiChatResponse {
  gres_response : string;
  gres_session_id : string;
  gres_response_time : number;
  gres_timestamp : string
}.

(** The [data] of [healthCheck]'s answer. *)
Record HealthData := mkHealthData {
  dataset_backend : bool;
  gemini_api : bool;
  hybrid_mode : bool
}.

(** A payload the router never inspects ([ApiResponse<any>]). *)
Definition Json := string.

(** Truthiness of optional values. *)
Definition truthy_bool (b : option bool) : bool :=
  match b with Some true => true | _ => false end.

Definition truthy_string (s : option string) : bool :=
  match s with Some s => JsString.truthy s | None => false end.

Definition truthy_obj {T} (o : option T) : bool :=
  match o with Some _ => true | None => false end.

Definition status_eqb (a b : Status) : bool :=
  match a, b with
  | Success, Success | Error, Error => true
  | _, _ => false
  end.

(** ** Effects *)

Inductive Event :=
| EvDateNow                        (* Date.now() *)
| EvNewDate                        (* new Date().toISOString() *)
| EvMathRandom                     (* Math.random() *)
| EvConsoleLog (text : string) (err : option Thrown)
| EvConsoleError (text : string) (err : option Thrown)
| EvGeminiSend (req : GeminiChatRequest)   (* geminiApiService.sendMessage *)
| EvDatasetSend (req : ChatRequest)        (* apiService.sendMessage *)
| EvDatasetHealth                  (* apiService.healthCheck *)
| EvGeminiHealth.                  (* geminiApiService.healthCheck *)

Definition History := list Event.

(** What the outside world answers, given everything done so far. *)
Record World := mkWorld {
  clock_ms : History -> number;
  clock_iso : History -> string;
  random36 : History -> string;    (* Math.random().toString(36) *)
  gemini_chat : History -> GeminiChatRequest -> Outcome (ApiResponse GeminiChatResponse);
  dataset_chat : History -> ChatRequest -> Outcome (ApiResponse ChatResponse);
  dataset_health : History -> Outcome (ApiResponse Json);
  gemini_health : History -> Outcome (ApiResponse Json)
}.

(** Computations: read the world, extend the history, throw or return. *)
Definition M (A : Type) : Type := World -> History -> Outcome A * History.

Definition ret {A} (a : A) : M A := fun _ h => (Fulfilled a, h).

Definition bind {A B} (m : M A) (k : A -> M B) : M B :=
  fun w h =>
    match m w h with
    | (Rejected e, h') => (Rejected e, h')
    | (Fulfilled a, h') => k a w h'
    end.

(** [try { body } catch (error) { handler }] *)
Definition try_catch {A} (body : M A) (handler : Thrown -> M A) : M A :=
  fun w h =>
    match body w h with
    | (Rejected e, h') => handler e w h'
    | r => r
    end.

(** One effect: the world is asked, the event is recorded.  For an
    awaited promise, a rejection throws at the [await]. *)
Definition perform {A} (ev : Event) (ask : World -> History -> Outcome A) : M A :=
  fun w h => (ask w h, h ++ [ev])%list.

Declare Scope js_scope.
Delimit Scope js_scope with js.
Notation "x <- m ;; k" := (bind m (fun x => k))
  (at level 100, m at next level, right associativity) : js_scope.
Notation "m ;;; k" := (bind m (fun _ => k))
  (at level 100, right associativity) : js_scope.
Local Open Scope js_scope.

Definition Date_now : M number :=
  perform EvDateNow (fun w h => Fulfilled (clock_ms w h)).

Definition new_Date_toISOString : M string :=
  perform EvNewDate (fun w h => Fulfilled (clock_iso w h)).

Definition Math_random_toString36 : M string :=
  perform EvMathRandom (fun w h => Fulfilled (random36 w h)).

Definition console_log (text : string) (err : option Thrown) : M unit :=
  perform (EvConsoleLog text err) (fun _ _ => Fulfilled tt).

Definition console_error (text : string) (err : option Thrown) : M unit :=
  perform (EvConsoleError text err) (fun _ _ => Fulfilled tt).

Definition geminiApiService_sendMessage (req : GeminiChatRequest)
  : M (ApiResponse GeminiChatResponse) :=
  perform (EvGeminiSend req) (fun w h => gemini_chat w h req).

Definition apiService_sendMessage (req : ChatRequest)
  : M (ApiResponse ChatResponse) :=
  perform (EvDatasetSend req) (fun w h => dataset_chat w h req).

(** A promise under [Promise.allSettled]: its settlement is captured
    as a value instead of being thrown. *)
Definition settled {A} (ev : Event) (ask : World -> History -> Outcome A)
  : M (Outcome A) :=
  fun w h => (Fulfilled (ask w h), h ++ [ev])%list.

(** Run a computation from the empty history.  A world answers by the
    history it is shown, so nothing is lost by starting there. *)
Definition run {A} (w : World) (m : M A) : Outcome A * History := m w [].

(** ** The router: [HybridChatService] *)

Module HybridChatService.

Definition supportKeywords : list string :=
  [ "help"; "support"; "problem"; "issue"; "error"; "bug"; "complaint";
    "refund"; "return"; "cancel"; "billing"; "payment"; "account";
    "login"; "password"; "reset"; "contact"; "phone"; "email" ].

(** [private isCustomerSupportQuery(message: string): boolean] *)
Definition isCustomerSupportQuery (message : string) : bool :=
  let lowerMessage := JsString.toLowerCase message in
  existsb (fun keyword => JsString.includes lowerMessage keyword) supportKeywords.

Definition guidance : string :=
  "I'm having trouble connecting to my AI services right now. Please check that your Gemini API key is properly configured in Project Settings → Environment Variables. You can get a free API key from Google AI Studio (aistudio.google.com).".

(** The object literal of a successful answer; its fields are
    evaluated in the order they are written.  [elapsed] reads the
    clock for [response_time]. *)
Definition elapsed (startTime : number) : M number :=
  now <- Date_now ;;
  ret ((now - startTime) / 1000)%float.

Definition success_result (text : string) (src : Source) (sessionId : string)
    (responseTime : number) (conf : option number)
  : M (ApiResponse HybridChatResponse) :=
  ts <- new_Date_toISOString ;;
  ts' <- new_Date_toISOString ;;
  ret {| status := Success;
         message := None;
         data := Some {| response := text;
                         source := src;
                         session_id := sessionId;
                         response_time := responseTime;
                         hres_timestamp := ts;
                         confidence := conf |};
         timestamp := Some ts' |}.

(** Lines 26-51: the generative backend first.  [Some r] stands for
    [return r] out of [sendMessage], [None] for falling through. *)
Definition gemini_first (request : HybridChatRequest) (sessionId : string)
    (startTime : number) : M (option (ApiResponse HybridChatResponse)) :=
  if negb (truthy_bool (hreq_use_dataset request))
     || negb (isCustomerSupportQuery (hreq_message request))
  then
    console_log "[v0] Trying Gemini first for general query" None ;;;
    try_catch
      (geminiResponse <- geminiApiService_sendMessage
           {| greq_message := hreq_message request; greq_session_id := sessionId |} ;;
       match status geminiResponse, data geminiResponse with
       | Success, Some d =>
           responseTime <- elapsed startTime ;;
           r <- success_result (gres_response d) Gemini sessionId responseTime None ;;
           ret (Some r)
       | _, _ => ret None
       end)
      (fun error =>
         console_log "[v0] Gemini failed, trying dataset fallback:" (Some error) ;;;
         ret None)
  else ret None.

(** Lines 53-80: the dataset backend. *)
Definition dataset_attempt (request : HybridChatRequest) (sessionId : string)
    (startTime : number) : M (option (ApiResponse HybridChatResponse)) :=
  if truthy_bool (hreq_use_dataset request)
     || isCustomerSupportQuery (hreq_message request)
  then
    try_catch
      (datasetResponse <- apiService_sendMessage
           {| creq_message := hreq_message request;
              creq_session_id := Some sessionId;
              creq_model_type :=
                Some (match hreq_model_type request with
                      | Some m => m
                      | None => Enhanced
                      end) |} ;;
       match status datasetResponse, data datasetResponse with
       | Success, Some d =>
           responseTime <- elapsed startTime ;;
           r <- success_result (cres_response d) Dataset sessionId responseTime
                  (cres_confidence d) ;;
           ret (Some r)
       | _, _ => ret None
       end)
      (fun error =>
         console_log "[v0] Dataset API failed, falling back to Gemini:" (Some error) ;;;
         ret None)
  else ret None.

(** Lines 82-114: the generative backend as final fallback. *)
Definition final_fallback (request : HybridChatRequest) (sessionId : string)
    (startTime : number) : M (ApiResponse HybridChatResponse) :=
  console_log "[v0] Using Gemini as final fallback" None ;;;
  geminiResponse <- geminiApiService_sendMessage
      {| greq_message := hreq_message request; greq_session_id := sessionId |} ;;
  match status geminiResponse, data geminiResponse with
  | Success, Some d =>
      responseTime <- elapsed startTime ;;
      success_result (gres_response d) Gemini sessionId responseTime None
  | _, _ =>
      responseTime <- elapsed startTime ;;
      success_result guidance Gemini sessionId responseTime None
  end.

(** [async sendMessage(request)] *)
Definition sendMessage (request : HybridChatRequest)
  : M (ApiResponse HybridChatResponse) :=
  startTime <- Date_now ;;
  sessionId <- (if truthy_string (hreq_session_id request)
                then ret (match hreq_session_id request with
                          | Some s => s
                          | None => ""
                          end)
                else r <- Math_random_toString36 ;;
                     ret (JsString.substring_from 7 r)) ;;
  try_catch
    (r1 <- gemini_first request sessionId startTime ;;
     match r1 with
     | Some r => ret r
     | None =>
         r2 <- dataset_attempt request sessionId startTime ;;
         match r2 with
         | Some r => ret r
         | None => final_fallback request sessionId startTime
         end
     end)
    (fun error =>
       console_error "Hybrid chat service error:" (Some error) ;;;
       ts <- new_Date_toISOString ;;
       ret {| status := Error;
              message := Some (match error with
                               | ThrownError _ msg => msg
                               | ThrownValue _ =>
                                   "Failed to get response from any AI service"
                               end);
              data := None;
              timestamp := Some ts |}).

(** [Promise.allSettled]'s view of one probe:
    [h.status === "fulfilled" && h.value.status === "success"]. *)
Definition probe_status {T} (h : Outcome (ApiResponse T)) : bool :=
  match h with
  | Fulfilled value => status_eqb (status value) Success
  | Rejected _ => false
  end.

(** [async healthCheck()]: [Promise.allSettled] starts both probes and
    captures each one's settlement; neither rejection throws. *)
Definition healthCheck : M (ApiResponse HealthData) :=
  datasetHealth <- settled EvDatasetHealth dataset_health ;;
  geminiHealth <- settled EvGeminiHealth gemini_health ;;
  let datasetStatus := probe_status datasetHealth in
  let geminiStatus := probe_status geminiHealth in
  ts <- new_Date_toISOString ;;
  ret {| status := if datasetStatus || geminiStatus then Success else Error;
         data := Some {| dataset_backend := datasetStatus;
                         gemini_api := geminiStatus;
                         hybrid_mode := datasetStatus && geminiStatus |};
         message := Some (if datasetStatus && geminiStatus
                          then "Both services available"
                          else if datasetStatus then "Dataset backend only"
                          else if geminiStatus then "Gemini API only"
                          else "No services available");
         timestamp := Some ts |}.

End HybridChatService.

(** ** The dataset backend's client: [ApiService] of [lib/api.ts] *)

Module ApiService.

(** What [fetch] did: it threw (a network failure, or the abort of the
    30 s timeout), or it gave a response whose [json()] is then read
    ([None] is the JSON value [null]). *)
Inductive Fetch (T : Type) :=
| FetchThrew (e : Thrown)
| FetchResponded (ok : bool) (code : nat) (statusText : string)
    (json : Outcome (option T)).
Arguments FetchThrew {T} e.
Arguments FetchResponded {T} ok code statusText json.

Definition string_of_nat (n : nat) : string :=
  NilEmpty.string_of_uint (Nat.to_uint n).

Definition new_Error {A} (msg : string) : Outcome A :=
  Rejected (ThrownError "Error" msg).

(** The [try] block of [makeRequest]. *)
Definition makeRequest_try {T} (f : Fetch T) (now : string)
  : Outcome (ApiResponse T) :=
  match f with
  | FetchThrew e => Rejected e
  | FetchResponded ok code statusText json =>
      if negb ok then
        if (code =? 429)%nat
        then new_Error "Rate limit exceeded. Please wait before trying again."
        else if (code =? 404)%nat
        then new_Error "API endpoint not found. Please check if the backend is running."
        else if (500 <=? code)%nat
        then new_Error "Server error. Please try again later."
        else new_Error ("HTTP " ++ string_of_nat code ++ ": " ++ statusText)
      else
        match json with
        | Rejected e => Rejected e
        | Fulfilled d =>
            Fulfilled {| status := Success; message := None; data := d;
                         timestamp := Some now |}
        end
  end.

(** [private async makeRequest<T>(endpoint, options)], with its [catch]. *)
Definition makeRequest {T} (f : Fetch T) (now : string)
  : Outcome (ApiResponse T) :=
  match makeRequest_try f now with
  | Rejected (ThrownError name msg) =>
      if String.eqb name "AbortError"
      then new_Error "Request timeout. Please check your connection and try again."
      else if JsString.includes msg "fetch"
      then new_Error "Unable to connect to the backend. Please ensure the Flask server is running on http://localhost:5000"
      else Rejected (ThrownError name msg)
  | Rejected (ThrownValue _) => new_Error "An unexpected error occurred"
  | Fulfilled r => Fulfilled r
  end.

End ApiService.

(** ** Observing a call *)

Inductive Backend := DatasetBackend | GenerativeBackend.

Definition backend_of (e : Event) : option Backend :=
  match e with
  | EvGeminiSend _ => Some GenerativeBackend
  | EvDatasetSend _ => Some DatasetBackend
  | _ => None
  end.

(** The backend calls of a history, oldest first. *)
Fixpoint backend_calls (h : History) : list Backend :=
  match h with
  | [] => []
  | e :: h' =>
      match backend_of e with
      | Some b => b :: backend_calls h'
      | None => backend_calls h'
      end
  end.

Definition first_attempted (h : History) : option Backend :=
  hd_error (backend_calls h).

Definition backend_eqb (a b : Backend) : bool :=
  match a, b with
  | DatasetBackend, DatasetBackend | GenerativeBackend, GenerativeBackend => true
  | _, _ => false
  end.

Definition calls_to (b : Backend) (h : History) : nat :=
  List.length (filter (backend_eqb b) (backend_calls h)).

(** The requests sent to the dataset backend, oldest first. *)
Fixpoint dataset_requests (h : History) : list ChatRequest :=
  match h with
  | [] => []
  | EvDatasetSend q :: h' => q :: dataset_requests h'
  | _ :: h' => dataset_requests h'
  end.

(** A chat backend fails when its call is rejected, or answers with a
    status other than success, or without data. *)
Definition chat_ok {T} (o : Outcome (ApiResponse T)) : bool :=
  match o with
  | Fulfilled r => status_eqb (status r) Success && truthy_obj (data r)
  | Rejected _ => false
  end.

(** One call of [sendMessage], from the empty history. *)
Definition route (w : World) (request : HybridChatRequest)
  : Outcome (ApiResponse HybridChatResponse) * History :=
  run w (HybridChatService.sendMessage request).

Definition health (w : World) : Outcome (ApiResponse HealthData) * History :=
  run w HybridChatService.healthCheck.

(** What each backend call of a history was answered, oldest first. *)
Inductive Exchange :=
| GeminiAnswered (req : GeminiChatRequest)
    (o : Outcome (ApiResponse GeminiChatResponse))
| DatasetAnswered (req : ChatRequest)
    (o : Outcome (ApiResponse ChatResponse)).

Fixpoint exchanges_from (w : World) (past h : History) : list Exchange :=
  match h with
  | [] => []
  | e :: h' =>
      let rest := exchanges_from w (past ++ [e])%list h' in
      match e with
      | EvGeminiSend q => GeminiAnswered q (gemini_chat w past q) :: rest
      | EvDatasetSend q => DatasetAnswered q (dataset_chat w past q) :: rest
      | _ => rest
      end
  end.

Definition exchanges (w : World) (h : History) : list Exchange :=
  exchanges_from w [] h.


(** The message of the error result (line 119). *)
Definition error_message (e : Thrown) : string :=
  match e with
  | ThrownError _ msg => msg
  | ThrownValue _ => "Failed to get response from any AI service"
  end.

(** [Math.random().toString(36).substring(7)], drawn right after the
    first clock reading. *)
Definition fresh_token (w : World) : string :=
  JsString.substring_from 7 (random36 w [EvDateNow]).

Definition with_session_id (request : HybridChatRequest) (sid : option string)
  : HybridChatRequest :=
  {| hreq_message := hreq_message request;
     hreq_session_id := sid;
     hreq_use_dataset := hreq_use_dataset request;
     hreq_model_type := hreq_model_type request |}.

(** ** The decision tree of [sendMessage], as a relation

    [Routed request sessionId xs r]: the backend exchanges [xs], in
    this order, lead [sendMessage request] to return [r]. *)

Section Decision.

Variable request : HybridChatRequest.
Variable sessionId : string.

Definition gemini_request : GeminiChatRequest :=
  {| greq_message := hreq_message request; greq_session_id := sessionId |}.

Definition dataset_request : ChatRequest :=
  {| creq_message := hreq_message request;
     creq_session_id := Some sessionId;
     creq_model_type := Some (match hreq_model_type request with
                              | Some m => m
                              | None => Enhanced
                              end) |}.

(** The condition of line 26. *)
Definition gemini_goes_first : bool :=
  negb (truthy_bool (hreq_use_dataset request))
  || negb (HybridChatService.isCustomerSupportQuery (hreq_message request)).

(** The condition of line 54. *)
Definition dataset_allowed : bool :=
  truthy_bool (hreq_use_dataset request)
  || HybridChatService.isCustomerSupportQuery (hreq_message request).

Definition answer (text : string) (src : Source) (conf : option number)
    (rt : number) (ts ts' : string) : ApiResponse HybridChatResponse :=
  {| status := Success;
     message := None;
     data := Some {| response := text; source := src; session_id := sessionId;
                     response_time := rt; hres_timestamp := ts;
                     confidence := conf |};
     timestamp := Some ts' |}.

Definition error_result (e : Thrown) (ts : string) : ApiResponse HybridChatResponse :=
  {| status := Error; message := Some (error_message e); data := None;
     timestamp := Some ts |}.

(** What the final fallback makes of the generative backend's answer. *)
Inductive Final
  : Outcome (ApiResponse GeminiChatResponse) -> ApiResponse HybridChatResponse -> Prop :=
| FinalAnswer a d rt ts ts' :
    status a = Success -> data a = Some d ->
    Final (Fulfilled a) (answer (gres_response d) Gemini None rt ts ts')
| FinalGuidance a rt ts ts' :
    chat_ok (Fulfilled a) = false ->
    Final (Fulfilled a) (answer HybridChatService.guidance Gemini None rt ts ts')
| FinalError e ts :
    Final (Rejected e) (error_result e ts).

(** The exchanges before the dataset backend's turn, when the call has
    not returned yet. *)
Inductive FirstFailed : list Exchange -> Prop :=
| NotFirst :
    gemini_goes_first = false -> FirstFailed []
| GeminiFailed g :
    gemini_goes_first = true -> chat_ok g = false ->
    FirstFailed [GeminiAnswered gemini_request g].

Inductive Routed : list Exchange -> ApiResponse HybridChatResponse -> Prop :=
| RoutedGeminiFirst a d rt ts ts' :
    gemini_goes_first = true ->
    status a = Success -> data a = Some d ->
    Routed [GeminiAnswered gemini_request (Fulfilled a)]
           (answer (gres_response d) Gemini None rt ts ts')
| RoutedDataset pre a d rt ts ts' :
    FirstFailed pre -> dataset_allowed = true ->
    status a = Success -> data a = Some d ->
    Routed (pre ++ [DatasetAnswered dataset_request (Fulfilled a)])%list
           (answer (cres_response d) Dataset (cres_confidence d) rt ts ts')
| RoutedFallback pre o g r :
    FirstFailed pre -> dataset_allowed = true ->
    chat_ok o = false -> Final g r ->
    Routed (pre ++ [DatasetAnswered dataset_request o;
                    GeminiAnswered gemini_request g])%list r
| RoutedNoDataset pre g r :
    FirstFailed pre -> dataset_allowed = false ->
    Final g r ->
    Routed (pre ++ [GeminiAnswered gemini_request g])%list r.

End Decision.

(** The session id a call works with (line 23). *)
Definition session_of (w : World) (request : HybridChatRequest) : string :=
  if truthy_string (hreq_session_id request)
  then match hreq_session_id request with Some s => s | None => "" end
  else fresh_token w.

Definition exchange_backend (x : Exchange) : Backend :=
  match x with
  | GeminiAnswered _ _ => GenerativeBackend
  | DatasetAnswered _ _ => DatasetBackend
  end.

Definition exchange_ok (x : Exchange) : bool :=
  match x with
  | GeminiAnswered _ o => chat_ok o
  | DatasetAnswered _ o => chat_ok o
  end.

(** The two probes of [healthCheck], and what it is for one to succeed. *)
Definition dataset_probe (w : World) : Outcome (ApiResponse Json) :=
  dataset_health w [].

Definition gemini_probe (w : World) : Outcome (ApiResponse Json) :=
  gemini_health w [EvDatasetHealth].

Definition ProbeSucceeds {T} (o : Outcome (ApiResponse T)) : Prop :=
  exists r, o = Fulfilled r /\ status r = Success.

(** ** Sample worlds and requests *)

Module Samples.

Definition network_error : Thrown := ThrownError "TypeError" "Failed to fetch".

Definition world (gem : Outcome (ApiResponse GeminiChatResponse))
    (dat : Outcome (ApiResponse ChatResponse))
    (gem_health dat_health : Outcome (ApiResponse Json)) : World :=
  {| clock_ms := fun _ => 1700000000000%float;
     clock_iso := fun _ => "2023-11-14T22:13:20.000Z";
     random36 := fun _ => "0.4fzyo82mvyr";
     gemini_chat := fun _ _ => gem;
     dataset_chat := fun _ _ => dat;
     dataset_health := fun _ => dat_health;
     gemini_health := fun _ => gem_health |}.

(** The Flask server is not running: [fetch] throws. *)
Definition flask_down {T} : Outcome (ApiResponse T) :=
  ApiService.makeRequest (ApiService.FetchThrew network_error)
    "2023-11-14T22:13:20.000Z".

(** The relay answers in band that the credential is missing. *)
Definition no_api_key {T} : Outcome (ApiResponse T) :=
  Fulfilled {| status := Error;
               message := Some "Gemini API key missing on server";
               data := None;
               timestamp := Some "2023-11-14T22:13:20.000Z" |}.

Definition flask_answer (conf : option number) : Outcome (ApiResponse ChatResponse) :=
  ApiService.makeRequest
    (ApiService.FetchResponded true 200 "OK"
       (Fulfilled (Some {| cres_confidence := conf;
                           cres_response := "You can request a refund from your orders page.";
                           cres_session_id := "s1";
                           cres_model_type := "enhanced";
                           cres_response_time := 0.25%float;
                           cres_timestamp := "2023-11-14T22:13:20.000Z" |})))
    "2023-11-14T22:13:20.000Z".

Definition flask_healthy : Outcome (ApiResponse Json) :=
  ApiService.makeRequest
    (ApiService.FetchResponded true 200 "OK" (Fulfilled (Some "{}")))
    "2023-11-14T22:13:20.000Z".

Definition gemini_answer : Outcome (ApiResponse GeminiChatResponse) :=
  Fulfilled {| status := Success;
               message := None;
               data := Some {| gres_response := "Why did the chicken cross the road?";
                               gres_session_id := "s1";
                               gres_response_time := 0.5%float;
                               gres_timestamp := "2023-11-14T22:13:20.000Z" |};
               timestamp := Some "2023-11-14T22:13:20.000Z" |}.

Definition gemini_healthy : Outcome (ApiResponse Json) :=
  Fulfilled {| status := Success; message := None; data := Some "{}";
               timestamp := Some "2023-11-14T22:13:20.000Z" |}.

(** Nothing is reachable: both clients throw. *)
Definition offline : World :=
  world (Rejected network_error) flask_down (Rejected network_error) flask_down.

(** The relay has no credential and the Flask server is not running. *)
Definition unconfigured : World :=
  world no_api_key flask_down no_api_key flask_down.

(** Both backends answer; the dataset backend reports [conf]. *)
Definition both_up (conf : option number) : World :=
  world gemini_answer (flask_answer conf) gemini_healthy flask_healthy.

(** Only the dataset backend answers. *)
Definition dataset_only : World :=
  world no_api_key (flask_answer (Some 0.75%float)) no_api_key flask_healthy.

(** Both backends answer, and [Math.random()] drew 0.5, which is [0.i]
    in base 36. *)
Definition short_draw : World :=
  {| clock_ms := clock_ms (both_up None);
     clock_iso := clock_iso (both_up None);
     random36 := fun _ => "0.i";
     gemini_chat := gemini_chat (both_up None);
     dataset_chat := dataset_chat (both_up None);
     dataset_health := dataset_health (both_up None);
     gemini_health := gemini_health (both_up None) |}.

Definition joke : HybridChatRequest :=
  {| hreq_message := "tell me a joke"; hreq_session_id := None;
     hreq_use_dataset := Some false; hreq_model_type := None |}.

Definition joke_with_dataset : HybridChatRequest :=
  {| hreq_message := "tell me a joke"; hreq_session_id := Some "s1";
     hreq_use_dataset := Some true; hreq_model_type := Some Basic |}.

Definition refund : HybridChatRequest :=
  {| hreq_message := "I need a refund"; hreq_session_id := Some "";
     hreq_use_dataset := Some true; hreq_model_type := None |}.

End Samples.

(** ** The generative backend's client: [GeminiApiService] of [lib/gemini-api.ts] *)

(** [{ connected: boolean; error?: string }], the answer of both
    clients' [testConnection]. *)
Record Connection := mkConnection {
  connected : bool;
  connection_error : option string
}.

Module GeminiApiService.

(** What [fetch("/api/gemini")] and [res.json()] did.  The body is
    read as the [ApiResponse] the cast declares; [res.ok] is not
    looked at. *)
Inductive Fetch (T : Type) :=
| FetchThrew (e : Thrown)
| FetchResponded (json : Outcome (ApiResponse T)).
Arguments FetchThrew {T} e.
Arguments FetchResponded {T} json.

(** [e?.message || fallback] *)
Definition message_or (e : Thrown) (fallback : string) : string :=
  match e with
  | ThrownError _ msg => if JsString.truthy msg then msg else fallback
  | ThrownValue _ => fallback
  end.

(** The body of each [try], up to the [return] or the throw. *)
Definition fetched {T} (f : Fetch T) : Outcome (ApiResponse T) :=
  match f with
  | FetchThrew e => Rejected e
  | FetchResponded json => json
  end.

(** [try { ...; return await res.json() } catch (e) { return {...} }],
    the body of [sendMessage] and of [translate]. *)
Definition post {T} (f : Fetch T) (now : string) : Outcome (ApiResponse T) :=
  match fetched f with
  | Fulfilled r => Fulfilled r
  | Rejected e =>
      Fulfilled {| status := Error;
                   message := Some (message_or e "Network error");
                   data := None;
                   timestamp := Some now |}
  end.

(** [async sendMessage(request)] *)
Definition sendMessage (f : Fetch GeminiChatResponse) (now : string)
  : Outcome (ApiResponse GeminiChatResponse) :=
  post f now.

(** [async translate(text, to)]; the answer's [data] is
    [{ translated }]. *)
Definition translate (f : Fetch string) (now : string)
  : Outcome (ApiResponse string) :=
  post f now.

(** [async testConnection()] *)
Definition testConnection (f : Fetch Json) : Outcome Connection :=
  match fetched f with
  | Fulfilled json =>
      Fulfilled {| connected := status_eqb (status json) Success;
                   connection_error := message json |}
  | Rejected e =>
      Fulfilled {| connected := false;
                   connection_error := Some (message_or e "Network error") |}
  end.

(** [async healthCheck()] *)
Definition healthCheck (f : Fetch Json) (now : string)
  : Outcome (ApiResponse Json) :=
  match testConnection f with
  | Rejected e => Rejected e
  | Fulfilled connection =>
      Fulfilled {| status := if connected connection then Success else Error;
                   message := connection_error connection;
                   data := None;
                   timestamp := Some now |}
  end.

(** One model of [getModelStatus]'s answer. *)
Record ModelInfo := mkModelInfo {
  loaded : bool;
  info : string;
  training_history : list Json
}.

Record ModelStatus := mkModelStatus {
  basic : ModelInfo;
  enhanced : ModelInfo;
  models_timestamp : string
}.

(** [async getModelStatus()]: a fixed description, no request. *)
Definition getModelStatus (now now' : string) : Outcome (ApiResponse ModelStatus) :=
  Fulfilled
    {| status := Success;
       message := None;
       data := Some {| basic := {| loaded := true;
                                   info := "Gemini-2.5-Flash (via server route)";
                                   training_history := [] |};
                       enhanced := {| loaded := true;
                                      info := "Gemini-2.5-Pro (alias)";
                                      training_history := [] |};
                       models_timestamp := now |};
       timestamp := Some now' |}.

End GeminiApiService.

(** ** The other calls of [ApiService] *)

Module ApiServiceCalls.

(** [async healthCheck()], [getModelStatus()] and [sendMessage(request)]
    are [makeRequest] at [/health], [/model-status] and [/chat]. *)
Definition healthCheck (f : ApiService.Fetch Json) (now : string)
  : Outcome (ApiResponse Json) :=
  ApiService.makeRequest f now.

Definition getModelStatus (f : ApiService.Fetch Json) (now : string)
  : Outcome (ApiResponse Json) :=
  ApiService.makeRequest f now.

Definition sendMessage (f : ApiService.Fetch ChatResponse) (now : string)
  : Outcome (ApiResponse ChatResponse) :=
  ApiService.makeRequest f now.

(** [async testConnection()] *)
Definition testConnection (f : ApiService.Fetch Json) (now : string)
  : Outcome Connection :=
  match healthCheck f now with
  | Fulfilled _ =>
      Fulfilled {| connected := true; connection_error := None |}
  | Rejected e =>
      Fulfilled {| connected := false;
                   connection_error :=
                     Some (match e with
                           | ThrownError _ msg => msg
                           | ThrownValue _ => "Unknown error"
                           end) |}
  end.

End ApiServiceCalls.

(** ** [HybridChatService.getModelStatus] *)

(** The [data] of [getModelStatus]'s answer; [None] is [null] or an
    absent [data]. *)
Record ModelStatusData (D G : Type) := mkModelStatusData {
  dataset_models : option D;
  gemini_model : option G;
  models_hybrid_mode : bool
}.
Arguments mkModelStatusData {D G}.
Arguments dataset_models {D G}.
Arguments gemini_model {D G}.
Arguments models_hybrid_mode {D G}.

Definition is_fulfilled {A} (o : Outcome A) : bool :=
  match o with Fulfilled _ => true | Rejected _ => false end.

(** [async getModelStatus()], from the two settlements that
    [Promise.allSettled] captures.  Nothing in its [try] throws. *)
Definition hybrid_getModelStatus {D G}
    (datasetStatus : Outcome (ApiResponse D))
    (geminiStatus : Outcome (ApiResponse G)) (now : string)
  : Outcome (ApiResponse (ModelStatusData D G)) :=
  Fulfilled
    {| status := Success;
       message := None;
       data := Some {| dataset_models :=
                         match datasetStatus with
                         | Fulfilled value => data value
                         | Rejected _ => None
                         end;
                       gemini_model :=
                         match geminiStatus with
                         | Fulfilled value => data value
                         | Rejected _ => None
                         end;
                       models_hybrid_mode :=
                         is_fulfilled datasetStatus && is_fulfilled geminiStatus |};
       timestamp := Some now |}.

(** ** The router over the shipped clients *)

(** What the network does for each request of the two clients. *)
Record Network := mkNetwork {
  net_clock_ms : History -> number;
  net_clock_iso : History -> string;
  net_random36 : History -> string;
  relay_send : History -> GeminiChatRequest -> GeminiApiService.Fetch GeminiChatResponse;
  relay_health : History -> GeminiApiService.Fetch Json;
  flask_chat : History -> ChatRequest -> ApiService.Fetch ChatResponse;
  flask_health : History -> ApiService.Fetch Json
}.

(** The world of a router whose clients are [geminiApiService] and
    [apiService]. *)
Definition shipped (n : Network) : World :=
  {| clock_ms := net_clock_ms n;
     clock_iso := net_clock_iso n;
     random36 := net_random36 n;
     gemini_chat := fun h q =>
       GeminiApiService.sendMessage (relay_send n h q) (net_clock_iso n h);
     dataset_chat := fun h q =>
       ApiServiceCalls.sendMessage (flask_chat n h q) (net_clock_iso n h);
     dataset_health := fun h =>
       ApiServiceCalls.healthCheck (flask_health n h) (net_clock_iso n h);
     gemini_health := fun h =>
       GeminiApiService.healthCheck (relay_health n h) (net_clock_iso n h) |}.

(** The Flask request came back with a 2xx status and a parsed body. *)
Definition flask_succeeded {T} (f : ApiService.Fetch T) : Prop :=
  exists code statusText d,
    f = ApiService.FetchResponded true code statusText (Fulfilled d).

(** The relay's body was read, and its status is success. *)
Definition relay_succeeded {T} (f : GeminiApiService.Fetch T) : Prop :=
  exists r, f = GeminiApiService.FetchResponded (Fulfilled r) /\ status r = Success.


(** The Flask request came back 2xx with a body other than [null]. *)
Definition flask_chat_ok {T} (f : ApiService.Fetch T) : bool :=
  match f with
  | ApiService.FetchResponded true _ _ (Fulfilled (Some _)) => true
  | _ => false
  end.


(** ** The relay: [POST] of [app/api/gemini/route.ts] *)

Module GeminiRoute.

(** The keys of [LANG_LABEL]. *)
Inductive Lang := En | Hi | Te | Ta.

Definition LANG_LABEL (l : Lang) : string :=
  match l with
  | En => "English"
  | Hi => "Hindi"
  | Te => "Telugu"
  | Ta => "Tamil"
  end.

(** The fields [POST] reads off the request body. *)
Record Body := mkBody {
  action : option string;
  body_message : option string;
  body_session_id : option string;
  target_language : option Lang;
  text : option string
}.

(** [{}], the body when [req.json()] fails. *)
Definition empty_body : Body :=
  {| action := None; body_message := None; body_session_id := None;
     target_language := None; text := None |}.

(** The [data] of the three kinds of answer. *)
Inductive Data :=
| HealthOk                          (* { ok: true } *)
| Translated (translated : string)  (* { translated } *)
| Chat (c : GeminiChatResponse).

(** What the server has and sees while it answers one request: the
    environment variable, the model, the clock and the random draw. *)
Record Server := mkServer {
  NEXT_PUBLIC_GEMINI_API_KEY : option string;
  generateContent : string -> Outcome string;  (* then [response.text()] *)
  started : number;
  finished : number;
  now_iso : string;
  random_draw : string              (* Math.random().toString(36) *)
}.

(** [getApiKey()] *)
Definition getApiKey (s : Server) : option string :=
  if truthy_string (NEXT_PUBLIC_GEMINI_API_KEY s)
  then NEXT_PUBLIC_GEMINI_API_KEY s
  else None.

Definition quote : string := String (ascii_of_nat 34) "".
Definition newline : string := String (ascii_of_nat 10) "".

(** [s.substring(a, b)] for [a <= b]. *)
Fixpoint take (n : nat) (s : string) : string :=
  match n, s with
  | S n', String c s' => String c (take n' s')
  | _, _ => EmptyString
  end.

Definition substring (a b : nat) (s : string) : string :=
  take (b - a) (JsString.substring_from a s).

Definition failure (msg : string) (s : Server) : ApiResponse Data :=
  {| status := Error; message := Some msg; data := None;
     timestamp := Some (now_iso s) |}.

(** [e?.message || fallback] *)
Definition message_or (e : Thrown) (fallback : string) : string :=
  match e with
  | ThrownError _ msg => if JsString.truthy msg then msg else fallback
  | ThrownValue _ => fallback
  end.

Definition action_is (b : Body) (name : string) : bool :=
  match action b with
  | Some a => String.eqb a name
  | None => false
  end.

(** The health and status checks. *)
Definition POST_health (s : Server) : ApiResponse Data :=
  match generateContent s "ping" with
  | Fulfilled t =>
      let ok := JsString.truthy t in
      {| status := if ok then Success else Error;
         data := if ok then Some HealthOk else None;
         message := if ok then None else Some "Gemini health check failed";
         timestamp := Some (now_iso s) |}
  | Rejected e => failure (message_or e "Gemini health check error") s
  end.

(** The translation. *)
Definition POST_translate (s : Server) (b : Body) : ApiResponse Data :=
  match text b, target_language b with
  | Some t, Some l =>
      if JsString.truthy t then
        let prompt :=
          "Translate the following text to " ++ LANG_LABEL l
          ++ " using native script, preserving meaning and formatting. Do not add commentary."
          ++ newline ++ newline ++ "Text:" ++ newline
          ++ quote ++ quote ++ quote ++ t ++ quote ++ quote ++ quote in
        match generateContent s prompt with
        | Fulfilled translated =>
            {| status := Success; message := None;
               data := Some (Translated translated);
               timestamp := Some (now_iso s) |}
        | Rejected e => failure (message_or e "Gemini translation error") s
        end
      else failure "Missing text or target_language" s
  | _, _ => failure "Missing text or target_language" s
  end.

(** The default: send. *)
Definition POST_send (s : Server) (b : Body) : ApiResponse Data :=
  match body_message b with
  | Some message =>
      if JsString.truthy message then
        let sid :=
          if truthy_string (body_session_id b)
          then match body_session_id b with Some i => i | None => "" end
          else substring 2 10 (random_draw s) in
        let composed :=
          match target_language b with
          | Some l =>
              "You are a helpful assistant. Always respond in " ++ LANG_LABEL l
              ++ " using native script. Keep code or commands in original form."
              ++ newline ++ newline ++ "User message:" ++ newline
              ++ quote ++ quote ++ quote ++ message ++ quote ++ quote ++ quote
          | None => message
          end in
        match generateContent s composed with
        | Fulfilled responseText =>
            {| status := Success; message := None;
               data := Some (Chat {| gres_response := responseText;
                                     gres_session_id := sid;
                                     gres_response_time :=
                                       ((finished s - started s) / 1000)%float;
                                     gres_timestamp := now_iso s |});
               timestamp := Some (now_iso s) |}
        | Rejected e => failure (message_or e "Gemini API Error") s
        end
      else failure "Missing message" s
  | None => failure "Missing message" s
  end.

(** [export async function POST(req)]: it answers every request with
    HTTP 200 and one envelope.  [parsed] is what [req.json()] gave. *)
Definition POST (s : Server) (parsed : Outcome Body) : ApiResponse Data :=
  let body := match parsed with
              | Fulfilled b => b
              | Rejected _ => empty_body
              end in
  match getApiKey s with
  | None => failure "Gemini API key missing on server" s
  | Some _ =>
      if action_is body "health" || action_is body "status"
      then POST_health s
      else if action_is body "translate"
      then POST_translate s body
      else POST_send s body
  end.

(** [JSON.stringify({ action: "send", ...request })], as [POST] reads
    it back. *)
Definition send_body (q : GeminiChatRequest) : Body :=
  {| action := Some "send";
     body_message := Some (greq_message q);
     body_session_id := Some (greq_session_id q);
     target_language := None;
     text := None |}.

(** [JSON.stringify({ action: "health" })] *)
Definition health_body : Body :=
  {| action := Some "health"; body_message := None; body_session_id := None;
     target_language := None; text := None |}.

(** The client's cast of the body to [ApiResponse<GeminiChatResponse>]. *)
Definition as_chat (r : ApiResponse Data) : ApiResponse GeminiChatResponse :=
  {| status := status r;
     message := message r;
     data := match data r with
             | Some (Chat c) => Some c
             | _ => None
             end;
     timestamp := timestamp r |}.

(** The client's cast of the body to [ApiResponse<any>]. *)
Definition as_any (r : ApiResponse Data) : ApiResponse Json :=
  {| status := status r;
     message := message r;
     data := match data r with
             | Some HealthOk => Some "{ok: true}"
             | _ => None
             end;
     timestamp := timestamp r |}.

End GeminiRoute.

(** ** The whole path: router, clients, relay *)

(** The network of a deployment: each request to [/api/gemini] reaches
    the relay [server h], each request to the Flask server gets what
    [flask_chat] and [flask_health] say. *)
Definition deployed (server : History -> GeminiRoute.Server)
    (chat : History -> ChatRequest -> ApiService.Fetch ChatResponse)
    (hlth : History -> ApiService.Fetch Json)
    (clock_ms : History -> number) (clock_iso random36 : History -> string)
  : Network :=
  {| net_clock_ms := clock_ms;
     net_clock_iso := clock_iso;
     net_random36 := random36;
     relay_send := fun h q =>
       GeminiApiService.FetchResponded
         (Fulfilled (GeminiRoute.as_chat
                       (GeminiRoute.POST (server h)
                          (Fulfilled (GeminiRoute.send_body q)))));
     relay_health := fun h =>
       GeminiApiService.FetchResponded
         (Fulfilled (GeminiRoute.as_any
                       (GeminiRoute.POST (server h)
                          (Fulfilled GeminiRoute.health_body))));
     flask_chat := chat;
     flask_health := hlth |}.

(** A server with a credential whose model answers every prompt with
    the same joke, and one without a credential. *)
Definition joking_server : GeminiRoute.Server :=
  {| GeminiRoute.NEXT_PUBLIC_GEMINI_API_KEY := Some "AIza-sample";
     GeminiRoute.generateContent := fun _ =>
       Fulfilled "Why did the chicken cross the road?";
     GeminiRoute.started := 1700000000000%float;
     GeminiRoute.finished := 1700000000500%float;
     GeminiRoute.now_iso := "2023-11-14T22:13:20.500Z";
     GeminiRoute.random_draw := "0.4fzyo82mvyr" |}.

Definition keyless_server : GeminiRoute.Server :=
  {| GeminiRoute.NEXT_PUBLIC_GEMINI_API_KEY := Some "";
     GeminiRoute.generateContent := GeminiRoute.generateContent joking_server;
     GeminiRoute.started := GeminiRoute.started joking_server;
     GeminiRoute.finished := GeminiRoute.finished joking_server;
     GeminiRoute.now_iso := GeminiRoute.now_iso joking_server;
     GeminiRoute.random_draw := GeminiRoute.random_draw joking_server |}.

Definition deployment (server : GeminiRoute.Server) : Network :=
  deployed (fun _ => server)
    (fun _ _ => ApiService.FetchThrew Samples.network_error)
    (fun _ => ApiService.FetchThrew Samples.network_error)
    (fun _ => 1700000000000%float)
    (fun _ => "2023-11-14T22:13:20.000Z")
    (fun _ => "0.4fzyo82mvyr").

(** ** Locales and voices: [lib/google-tts.ts], [lib/text-to-speech.ts],
    [lib/speech-recognition.ts] *)

(** [switch (x) { case c1: ... case cn: }]: [x] is one of the labels. *)
Definition is_case (x : string) (labels : list string) : bool :=
  existsb (String.eqb x) labels.

(** [export function toIndianLocale(lang)] of [google-tts.ts] *)
Definition toIndianLocale (lang : string) : string :=
  if is_case lang ["en"; "en-IN"; "en_US"; "en-GB"] then "en-IN"
  else if is_case lang ["hi"; "hi-IN"] then "hi-IN"
  else if is_case lang ["te"; "te-IN"] then "te-IN"
  else if is_case lang ["ta"; "ta-IN"] then "ta-IN"
  else lang.

(** [lang || "en"] *)
Definition lang_or_en (lang : option string) : string :=
  if truthy_string lang
  then match lang with Some l => l | None => "" end
  else "en".

Module TextToSpeechService.

(** [private mapLangToBCP47(lang?: string)] *)
Definition mapLangToBCP47 (lang : option string) : string :=
  let l := JsString.toLowerCase (lang_or_en lang) in
  if is_case l ["hi"; "hi-in"] then "hi-IN"
  else if is_case l ["te"; "te-in"] then "te-IN"
  else if is_case l ["ta"; "ta-in"] then "ta-IN"
  else if is_case l ["en"; "en-in"] then "en-IN"
  else "en-IN".

(** The fields of a [SpeechSynthesisVoice] the service reads; [lang]
    is read through [?.] and [||], so it may be missing. *)
Record Voice := mkVoice {
  voiceURI : string;
  name : string;
  lang : option string;
  localService : bool;
  default : bool
}.

(** [s.endsWith(k)] *)
Definition endsWith (s k : string) : bool :=
  let n := String.length s in
  let m := String.length k in
  if (m <=? n)%nat
  then String.eqb (JsString.substring_from (n - m) s) k
  else false.

(** [s.split("-")[0]]: what comes before the first dash. *)
Fixpoint before_dash (s : string) : string :=
  match s with
  | EmptyString => EmptyString
  | String c s' =>
      if Ascii.eqb c "-"%char then EmptyString else String c (before_dash s')
  end.

(** [voice.lang?.toLowerCase()], then a test on it; a missing [lang]
    makes the test falsy. *)
Definition lang_test (p : string -> bool) (v : Voice) : bool :=
  match lang v with
  | Some l => p (JsString.toLowerCase l)
  | None => false
  end.

(** [a || b] on two results of [find]. *)
Definition or_else {A} (a b : option A) : option A :=
  match a with
  | Some x => Some x
  | None => b
  end.

(** [private pickBestVoice(targetTag)] over the loaded [voices]. *)
Definition pickBestVoice (voices : list Voice) (targetTag : string) : option Voice :=
  let lowerTag := JsString.toLowerCase targetTag in
  let exact := lang_test (fun l => String.eqb l lowerTag) in
  (* 1) exact tag with localService *)
  match or_else (find (fun voice => exact voice && localService voice) voices)
                (find exact voices) with
  | Some v => Some v
  | None =>
      (* 2) same base with -IN (prefer local) *)
      let base := before_dash lowerTag in
      let starts := lang_test (fun l => JsString.startsWith l base) in
      let ends := lang_test (fun l => endsWith l "-in") in
      match or_else (find (fun voice => starts voice && ends voice && localService voice)
                          voices)
                    (find (fun voice => starts voice && ends voice) voices) with
      | Some v => Some v
      | None =>
          (* 3) any base language (prefer local) *)
          match or_else (find (fun voice => starts voice && localService voice) voices)
                        (find starts voices) with
          | Some v => Some v
          | None =>
              (* 4) any Indian region voice as last resort *)
              match or_else (find (fun voice => ends voice && localService voice) voices)
                            (find ends voices) with
              | Some v => Some v
              | None =>
                  (* 5) default or first *)
                  or_else (find default voices) (hd_error voices)
              end
          end
      end
  end.

(** The [score] of [listVoicesForLanguage]. *)
Definition score (tag base : string) (v : Voice) : nat :=
  let l := JsString.toLowerCase
             (if truthy_string (lang v)
              then match lang v with Some x => x | None => "" end
              else "") in
  let local := if localService v then 1 else 0 in
  if String.eqb l (JsString.toLowerCase tag) then 100 + local
  else if JsString.startsWith l base && endsWith l "-in" then 80 + local
  else if JsString.startsWith l base then 60 + local
  else if endsWith l "-in" then 40 + local
  else 0 + local.

(** [.sort((a, b) => b.s - a.s)]: the sort is stable, so its result is
    the one of inserting from the right, each element before the first
    one that scores no more. *)
Fixpoint insert_by (s : Voice -> nat) (v : Voice) (sorted : list Voice) : list Voice :=
  match sorted with
  | [] => [v]
  | u :: rest =>
      if (s u <=? s v)%nat then v :: u :: rest else u :: insert_by s v rest
  end.

Fixpoint sort_by (s : Voice -> nat) (l : list Voice) : list Voice :=
  match l with
  | [] => []
  | v :: rest => insert_by s v (sort_by s rest)
  end.

(** [public listVoicesForLanguage(lang?: string)] *)
Definition listVoicesForLanguage (voices : list Voice) (lang : option string)
  : list Voice :=
  let tag := mapLangToBCP47 lang in
  let base := before_dash tag in
  sort_by (score tag base)
    (filter (fun v => (0 <? score tag base v)%nat) voices).

(** [preferredVoiceByLang]: a voice URI per tag. *)
Definition Preferences := string -> option string.

(** [public setPreferredVoice(lang, voiceUri?)] *)
Definition setPreferredVoice (prefs : Preferences) (lang : string)
    (voiceUri : option string) : Preferences :=
  let tag := mapLangToBCP47 (Some lang) in
  fun t => if String.eqb t tag then voiceUri else prefs t.

(** [private resolvePreferredVoice(tag)] *)
Definition resolvePreferredVoice (voices : list Voice) (prefs : Preferences)
    (tag : string) : option Voice :=
  if truthy_string (prefs tag)
  then match prefs tag with
       | Some uri =>
           find (fun v => String.eqb (voiceURI v) uri || String.eqb (name v) uri) voices
       | None => None
       end
  else None.

End TextToSpeechService.

Module SpeechRecognitionService.

(** [private mapLangToBCP47(lang?: string)], with its extra [en-us]
    label on the default. *)
Definition mapLangToBCP47 (lang : option string) : string :=
  let l := JsString.toLowerCase (lang_or_en lang) in
  if is_case l ["hi"; "hi-in"] then "hi-IN"
  else if is_case l ["te"; "te-in"] then "te-IN"
  else if is_case l ["ta"; "ta-in"] then "ta-IN"
  else if is_case l ["en"; "en-in"] then "en-IN"
  else if is_case l ["en-us"] then "en-IN"
  else "en-IN".

End SpeechRecognitionService.

(** [(v.lang || "").toLowerCase()] *)
Definition voice_language (v : TextToSpeechService.Voice) : string :=
  JsString.toLowerCase
    (if truthy_string (TextToSpeechService.lang v)
     then match TextToSpeechService.lang v with Some x => x | None => "" end
     else "").

(** A voice matches a tag by language when its language is the tag,
    starts with the tag's base, or ends in [-in]. *)
Definition language_match (tag : string) (v : TextToSpeechService.Voice) : bool :=
  String.eqb (voice_language v) (JsString.toLowerCase tag)
  || JsString.startsWith (voice_language v) (TextToSpeechService.before_dash tag)
  || TextToSpeechService.endsWith (voice_language v) "-in".

(** The first of the voices with the highest score. *)
Fixpoint best (s : TextToSpeechService.Voice -> nat)
    (l : list TextToSpeechService.Voice) : option TextToSpeechService.Voice :=
  match l with
  | [] => None
  | v :: rest =>
      match best s rest with
      | None => Some v
      | Some u => if (s u <=? s v)%nat then Some v else Some u
      end
  end.

(** Three loaded voices: an on-device French one, a remote Hindi one
    and an on-device Hindi one written in another case. *)
Definition sample_voices : list TextToSpeechService.Voice :=
  [ {| TextToSpeechService.voiceURI := "urn:fr"; TextToSpeechService.name := "Amelie";
       TextToSpeechService.lang := Some "fr-FR";
       TextToSpeechService.localService := true;
       TextToSpeechService.default := true |};
    {| TextToSpeechService.voiceURI := "urn:hi-remote"; TextToSpeechService.name := "Google Hindi";
       TextToSpeechService.lang := Some "hi-IN";
       TextToSpeechService.localService := false;
       TextToSpeechService.default := false |};
    {| TextToSpeechService.voiceURI := "urn:hi-local"; TextToSpeechService.name := "Lekha";
       TextToSpeechService.lang := Some "HI-in";
       TextToSpeechService.localService := true;
       TextToSpeechService.default := false |} ].

(** ** The choice of voice in [speak] *)

(** [options.voice || preferred || this.pickBestVoice(targetTag)] with
    [targetTag = this.mapLangToBCP47(options.lang)], lines of [speak]. *)
Definition chosen_voice (voices : list TextToSpeechService.Voice)
    (prefs : TextToSpeechService.Preferences)
    (options_voice : option TextToSpeechService.Voice)
    (options_lang : option string) : option TextToSpeechService.Voice :=
  let targetTag := TextToSpeechService.mapLangToBCP47 options_lang in
  let preferred := TextToSpeechService.resolvePreferredVoice voices prefs targetTag in
  TextToSpeechService.or_else options_voice
    (TextToSpeechService.or_else preferred
       (TextToSpeechService.pickBestVoice voices targetTag)).

(** ** The status card: [components/connection-status.tsx] *)

Module ConnectionStatus.

(** [{ result: any; timestamp: number }] *)
Record Snapshot := mkSnapshot {
  result : option HealthData;
  taken : number
}.

(** The refs and the React state of the component, and the values
    passed to [onConnectionChange] so far, oldest first. *)
Record State := mkState {
  lastHealthCheckRef : option Snapshot;
  lastGoodRef : option Snapshot;
  consecutiveFailuresRef : nat;
  isConnected : option bool;
  isChecking : bool;
  error : option string;
  lastChecked : option string;
  datasetConnected : bool;
  geminiConnected : bool;
  notified : list bool
}.

Definition initial : State :=
  {| lastHealthCheckRef := None; lastGoodRef := None; consecutiveFailuresRef := 0;
     isConnected := None; isChecking := false; error := None; lastChecked := None;
     datasetConnected := false; geminiConnected := false; notified := [] |}.

Definition CACHE_DURATION : number := 60000%float.
Definition FAIL_THRESHOLD : nat := 2.

(** [Boolean(data?.dataset_backend)] and [Boolean(data?.gemini_api)] *)
Definition dataset_up (data : option HealthData) : bool :=
  match data with Some d => dataset_backend d | None => false end.

Definition gemini_up (data : option HealthData) : bool :=
  match data with Some d => gemini_api d | None => false end.

Definition none_available : string :=
  "❌ Neither dataset backend nor Gemini API are available. Check your API key!".

Local Open Scope js_scope.

(** [const updateConnectionState = (data: any) => { ... }] *)
Definition updateConnectionState (data : option HealthData) (st : State) : M State :=
  console_log "[v0] Health check result:" None ;;;
  console_log "[v0] Dataset connected:" None ;;;
  console_log "[v0] Gemini connected:" None ;;;
  let anyUp := dataset_up data || gemini_up data in
  st1 <- (if anyUp then
            now <- Date_now ;;
            ret {| lastHealthCheckRef := lastHealthCheckRef st;
                   lastGoodRef := Some {| result := data; taken := now |};
                   consecutiveFailuresRef := 0;
                   isConnected := Some true;
                   isChecking := isChecking st;
                   error := error st;
                   lastChecked := lastChecked st;
                   datasetConnected := dataset_up data;
                   geminiConnected := gemini_up data;
                   notified := notified st |}
          else
            let failures := S (consecutiveFailuresRef st) in
            canUseLastGood <-
              match lastGoodRef st with
              | Some good =>
                  now <- Date_now ;;
                  ret (now - taken good <? 5 * 60 * 1000)%float
              | None => ret false
              end ;;
            let shown :=
              if (failures <? FAIL_THRESHOLD)%nat && canUseLastGood
              then match lastGoodRef st with
                   | Some good => result good
                   | None => None
                   end
              else None in
            ret {| lastHealthCheckRef := lastHealthCheckRef st;
                   lastGoodRef := lastGoodRef st;
                   consecutiveFailuresRef := failures;
                   isConnected := Some (dataset_up shown || gemini_up shown);
                   isChecking := isChecking st;
                   error := error st;
                   lastChecked := lastChecked st;
                   datasetConnected := dataset_up shown;
                   geminiConnected := gemini_up shown;
                   notified := notified st |}) ;;
  today <- new_Date_toISOString ;;
  ret {| lastHealthCheckRef := lastHealthCheckRef st1;
         lastGoodRef := lastGoodRef st1;
         consecutiveFailuresRef := consecutiveFailuresRef st1;
         isConnected := isConnected st1;
         isChecking := isChecking st1;
         error := if negb (dataset_up data) && negb (gemini_up data)
                     && (FAIL_THRESHOLD <=? consecutiveFailuresRef st1)%nat
                  then Some none_available
                  else None;
         lastChecked := Some today;
         datasetConnected := datasetConnected st1;
         geminiConnected := geminiConnected st1;
         notified := (notified st1 ++ [dataset_up data || gemini_up data])%list |}.

(** The state after [setIsChecking(c)]. *)
Definition set_checking (c : bool) (st : State) : State :=
  {| lastHealthCheckRef := lastHealthCheckRef st;
     lastGoodRef := lastGoodRef st;
     consecutiveFailuresRef := consecutiveFailuresRef st;
     isConnected := isConnected st;
     isChecking := c;
     error := error st;
     lastChecked := lastChecked st;
     datasetConnected := datasetConnected st;
     geminiConnected := geminiConnected st;
     notified := notified st |}.

(** The probe of [checkConnection]: its [try], [catch] and [finally]. *)
Definition probe (st : State) : M State :=
  let st0 :=
    {| lastHealthCheckRef := lastHealthCheckRef st;
       lastGoodRef := lastGoodRef st;
       consecutiveFailuresRef := consecutiveFailuresRef st;
       isConnected := isConnected st;
       isChecking := true;
       error := None;
       lastChecked := lastChecked st;
       datasetConnected := datasetConnected st;
       geminiConnected := geminiConnected st;
       notified := notified st |} in
  st' <- try_catch
    (console_log "[v0] === CONNECTION STATUS CHECK ===" None ;;;
     console_log "[v0] Checking hybrid chat service health..." None ;;;
     healthCheck <- HybridChatService.healthCheck ;;
     let data := data healthCheck in
     now <- Date_now ;;
     updateConnectionState data
       {| lastHealthCheckRef := Some {| result := data; taken := now |};
          lastGoodRef := lastGoodRef st0;
          consecutiveFailuresRef := consecutiveFailuresRef st0;
          isConnected := isConnected st0;
          isChecking := isChecking st0;
          error := error st0;
          lastChecked := lastChecked st0;
          datasetConnected := datasetConnected st0;
          geminiConnected := geminiConnected st0;
          notified := notified st0 |})
    (fun err =>
       console_error "[v0] Connection check failed:" (Some err) ;;;
       ret {| lastHealthCheckRef := lastHealthCheckRef st0;
              lastGoodRef := lastGoodRef st0;
              consecutiveFailuresRef := consecutiveFailuresRef st0;
              isConnected := Some false;
              isChecking := isChecking st0;
              error := Some (match err with
                             | ThrownError _ msg => msg
                             | ThrownValue _ => "Connection test failed"
                             end);
              lastChecked := lastChecked st0;
              datasetConnected := false;
              geminiConnected := false;
              notified := (notified st0 ++ [false])%list |}) ;;
  ret (set_checking false st').

(** [const checkConnection = async (forceRefresh = false) => { ... }] *)
Definition checkConnection (forceRefresh : bool) (st : State) : M State :=
  match (if negb forceRefresh then lastHealthCheckRef st else None) with
  | Some cached =>
      now <- Date_now ;;
      if (now - taken cached <? CACHE_DURATION)%float
      then console_log "[v0] Using cached connection status" None ;;;
           updateConnectionState (result cached) st
      else probe st
  | None => probe st
  end.

(** [getStatusText()] *)
Definition getStatusText (st : State) : string :=
  if isChecking st then "Checking..."
  else match isConnected st with
       | None => "Unknown"
       | Some _ =>
           if datasetConnected st && geminiConnected st then "Hybrid Ready"
           else if datasetConnected st then "Dataset Only"
           else if geminiConnected st then "Gemini Only"
           else "Disconnected"
       end.

(** [getStatusColor()] *)
Definition getStatusColor (st : State) : string :=
  match isConnected st with
  | None => "secondary"
  | Some true => "default"
  | Some false => "destructive"
  end.

End ConnectionStatus.

(** The health probes of a history. *)
Fixpoint health_probes (h : History) : nat :=
  match h with
  | [] => 0
  | EvDatasetHealth :: h' | EvGeminiHealth :: h' => S (health_probes h')
  | _ :: h' => health_probes h'
  end.

(** [Boolean(data?.dataset_backend || data?.gemini_api)] *)
Definition any_up (data : option HealthData) : bool :=
  ConnectionStatus.dataset_up data || ConnectionStatus.gemini_up data.

(** The state a call leaves, when it throws nothing. *)
Definition left_by (r : Outcome ConnectionStatus.State * History)
  : option ConnectionStatus.State :=
  match fst r with
  | Fulfilled st => Some st
  | Rejected _ => None
  end.

(** What the card shows is consistent: the status is online exactly
    when one of the two flags is set, and an error banner only shows
    with the offline status. *)
Definition consistent (st : ConnectionStatus.State) : Prop :=
  ConnectionStatus.isConnected st
  = Some (ConnectionStatus.datasetConnected st || ConnectionStatus.geminiConnected st)
  /\ (ConnectionStatus.error st <> None ->
      ConnectionStatus.isConnected st = Some false).

(** The last good result, if any, had a backend up. *)
Definition good_is_up (st : ConnectionStatus.State) : Prop :=
  forall good, ConnectionStatus.lastGoodRef st = Some good ->
               any_up (ConnectionStatus.result good) = true.

(** A card that saw both backends up a hundred seconds before the
    clock of the sample worlds. *)
Definition healthy_card : ConnectionStatus.State :=
  let both := Some {| dataset_backend := true; gemini_api := true;
                      hybrid_mode := true |} in
  let seen := {| ConnectionStatus.result := both;
                 ConnectionStatus.taken := 1699999900000%float |} in
  {| ConnectionStatus.lastHealthCheckRef := Some seen;
     ConnectionStatus.lastGoodRef := Some seen;
     ConnectionStatus.consecutiveFailuresRef := 0;
     ConnectionStatus.isConnected := Some true;
     ConnectionStatus.isChecking := false;
     ConnectionStatus.error := None;
     ConnectionStatus.lastChecked := Some "2023-11-14T22:11:40.000Z";
     ConnectionStatus.datasetConnected := true;
     ConnectionStatus.geminiConnected := true;
     ConnectionStatus.notified := [true] |}.

Definition all_down : option HealthData :=
  Some {| dataset_backend := false; gemini_api := false; hybrid_mode := false |}.

(** ** Tactics *)

Arguments HybridChatService.isCustomerSupportQuery : simpl never.
Arguments JsString.substring_from : simpl never.
Arguments truthy_string : simpl never.
Arguments truthy_bool : simpl never.

Ltac unfold_router :=
  unfold route, health, run,
    HybridChatService.sendMessage, HybridChatService.healthCheck,
    HybridChatService.gemini_first, HybridChatService.dataset_attempt,
    HybridChatService.final_fallback, HybridChatService.success_result,
    HybridChatService.elapsed,
    geminiApiService_sendMessage, apiService_sendMessage,
    Date_now, new_Date_toISOString, Math_random_toString36,
    console_log, console_error, settled, perform, try_catch, bind, ret.

Ltac case_step :=
  match goal with
  | H : gemini_chat ?w ?h ?q = _ |- context [gemini_chat ?w ?h ?q] => rewrite H
  | H : dataset_chat ?w ?h ?q = _ |- context [dataset_chat ?w ?h ?q] => rewrite H
  | |- context [gemini_chat ?w ?h ?q] =>
      destruct (gemini_chat w h q) as [? | [[|] ? [?|] ?]] eqn:?
  | |- context [dataset_chat ?w ?h ?q] =>
      destruct (dataset_chat w h q) as [? | [[|] ? [?|] ?]] eqn:?
  end.

Ltac cases := repeat (simpl; case_step); simpl.

(** Every path of [sendMessage]: the request's fields, the
    classification of its message, and each answer of the world. *)
Ltac route_cases :=
  match goal with
  | request : HybridChatRequest |- _ =>
      destruct request as [msg sid ud mt];
      unfold_router;
      cbn [hreq_message hreq_session_id hreq_use_dataset hreq_model_type];
      destruct (truthy_string sid) eqn:?;
      destruct (truthy_bool ud) eqn:?;
      destruct (HybridChatService.isCustomerSupportQuery msg) eqn:?;
      cases
  end.

(** ** JavaScript string facts *)

Lemma startsWith_spec s : forall k,
  JsString.startsWith s k = true <-> exists post, s = k ++ post.
Proof.
  induction s as [|b s IH]; intros [|a k]; simpl.
  - split; [exists ""; reflexivity | reflexivity].
  - split; [discriminate | intros [post H]; discriminate].
  - split; [exists (String b s); reflexivity | reflexivity].
  - rewrite andb_true_iff, Ascii.eqb_eq, IH. split.
    + intros [-> [post ->]]. exists post. reflexivity.
    + intros [post H]. injection H as -> ->. split; [reflexivity | now exists post].
Qed.

Lemma includes_spec s : forall k,
  JsString.includes s k = true <-> JsString.Substring k s.
Proof.
  unfold JsString.Substring.
  induction s as [|b s IH]; intros k.
  - cbn [JsString.includes]. rewrite orb_false_r, startsWith_spec. split.
    + intros [post H]. exists "", post. exact H.
    + intros [[|c pre] [post H]]; [now exists post | discriminate].
  - cbn [JsString.includes]. rewrite orb_true_iff, startsWith_spec, IH. split.
    + intros [[post H] | [pre [post H]]].
      * exists "", post. exact H.
      * exists (String b pre), post. simpl. now rewrite H.
    + intros [[|c pre] [post H]].
      * left. now exists post.
      * right. simpl in H. injection H as _ ->. now exists pre, post.
Qed.

(** ** The support-query classifier *)

Example classify_refund :
  HybridChatService.isCustomerSupportQuery "I need a REFUND" = true.
Proof. reflexivity. Qed.

Example classify_joke :
  HybridChatService.isCustomerSupportQuery "tell me a joke" = false.
Proof. reflexivity. Qed.

Example classify_inside_word :
  HybridChatService.isCustomerSupportQuery "Debugging" = true.
Proof. reflexivity. Qed.

(** C7: the classifier answers true exactly when the lowercased message
    contains, as a substring, one of the nineteen keywords help,
    support, problem, issue, error, bug, complaint, refund, return,
    cancel, billing, payment, account, login, password, reset, contact,
    phone, email. *)
Theorem isCustomerSupportQuery_iff_keyword (message : string) :
  HybridChatService.isCustomerSupportQuery message = true <->
  exists keyword,
    In keyword
       [ "help"; "support"; "problem"; "issue"; "error"; "bug"; "complaint";
         "refund"; "return"; "cancel"; "billing"; "payment"; "account";
         "login"; "password"; "reset"; "contact"; "phone"; "email" ]
    /\ JsString.Substring keyword (JsString.toLowerCase message).
Proof.
  unfold HybridChatService.isCustomerSupportQuery.
  rewrite existsb_exists.
  change HybridChatService.supportKeywords with
    [ "help"; "support"; "problem"; "issue"; "error"; "bug"; "complaint";
      "refund"; "return"; "cancel"; "billing"; "payment"; "account";
      "login"; "password"; "reset"; "contact"; "phone"; "email" ].
  split; intros [keyword [Hin Hsub]]; exists keyword; split; try exact Hin;
    now apply includes_spec.
Qed.

(** ** The code follows the decision tree *)

Ltac conditions :=
  unfold gemini_goes_first, dataset_allowed; simpl;
  repeat match goal with
         | H : truthy_bool _ = _ |- _ => rewrite H
         | H : HybridChatService.isCustomerSupportQuery _ = _ |- _ => rewrite H
         end;
  reflexivity.

Ltac routed_side :=
  lazymatch goal with
  | |- FirstFailed _ _ [] => apply NotFirst; conditions
  | |- FirstFailed _ _ [_] =>
      refine (GeminiFailed _ _ _ _ _); [ conditions | reflexivity ]
  | |- Final _ _ _ =>
      first [ solve [ eapply FinalAnswer; reflexivity ]
            | solve [ eapply FinalGuidance; reflexivity ]
            | refine (FinalError _ _ _) ]
  | |- dataset_allowed _ = _ => conditions
  | |- gemini_goes_first _ = _ => conditions
  | |- _ => reflexivity
  end.

Ltac routed :=
  first
    [ refine (RoutedGeminiFirst _ _ _ _ _ _ _ _ _ _)
    | refine (RoutedDataset _ _ [] _ _ _ _ _ _ _ _ _)
    | refine (RoutedDataset _ _ [_] _ _ _ _ _ _ _ _ _)
    | refine (RoutedFallback _ _ [] _ _ _ _ _ _ _)
    | refine (RoutedFallback _ _ [_] _ _ _ _ _ _ _)
    | refine (RoutedNoDataset _ _ [] _ _ _ _ _)
    | refine (RoutedNoDataset _ _ [_] _ _ _ _ _) ];
  routed_side.

Lemma route_routed (w : World) (request : HybridChatRequest) :
  exists r,
    fst (route w request) = Fulfilled r
    /\ Routed request (session_of w request)
         (exchanges w (snd (route w request))) r.
Proof.
  unfold exchanges, session_of, fresh_token.
  route_cases.
  all: eexists; (split; [reflexivity|]).
  all: solve [ routed ].
Qed.

(** ** From histories to exchanges *)

Lemma backend_calls_exchanges (w : World) (h : History) : forall past,
  map exchange_backend (exchanges_from w past h) = backend_calls h.
Proof.
  induction h as [|e h IH]; intros past; [reflexivity|].
  destruct e; simpl; rewrite ?IH; reflexivity.
Qed.

Lemma dataset_requests_exchanges (w : World) (q : ChatRequest) (h : History) :
  forall past,
    In q (dataset_requests h) ->
    exists o, In (DatasetAnswered q o) (exchanges_from w past h).
Proof.
  induction h as [|e h IH]; intros past Hin; [contradiction|].
  assert (Hrest : In q (dataset_requests h) ->
                  exists o, In (DatasetAnswered q o)
                               (exchanges_from w (past ++ [e])%list h))
    by apply IH.
  destruct e; simpl in *;
    try (destruct (Hrest Hin) as [o Ho]; exists o; now auto).
  destruct Hin as [-> | Hin].
  - eexists. left. reflexivity.
  - destruct (Hrest Hin) as [o Ho]. exists o. right. exact Ho.
Qed.

(** Every recorded answer is an answer of the world. *)
Lemma exchanges_from_world (w : World) (h : History) : forall past x,
  In x (exchanges_from w past h) ->
  match x with
  | GeminiAnswered q o => exists p, o = gemini_chat w p q
  | DatasetAnswered q o => exists p, o = dataset_chat w p q
  end.
Proof.
  induction h as [|e h IH]; intros past x Hin; [contradiction|].
  destruct e; simpl in Hin; try (apply (IH _ _ Hin)).
  - destruct Hin as [<- | Hin]; [now exists past | apply (IH _ _ Hin)].
  - destruct Hin as [<- | Hin]; [now exists past | apply (IH _ _ Hin)].
Qed.

Lemma dataset_first_negb (request : HybridChatRequest) :
  truthy_bool (hreq_use_dataset request)
  && HybridChatService.isCustomerSupportQuery (hreq_message request)
  = negb (gemini_goes_first request).
Proof.
  unfold gemini_goes_first.
  destruct (truthy_bool _), (HybridChatService.isCustomerSupportQuery _); reflexivity.
Qed.

Lemma dataset_allowed_when_first (request : HybridChatRequest) :
  gemini_goes_first request = false -> dataset_allowed request = true.
Proof.
  unfold gemini_goes_first, dataset_allowed.
  destruct (truthy_bool _), (HybridChatService.isCustomerSupportQuery _);
    simpl; congruence.
Qed.

Lemma truthy_bool_true (b : option bool) : truthy_bool b = true <-> b = Some true.
Proof. destruct b as [[|]|]; cbv; split; congruence. Qed.

(** The exception of a backend never leaves [sendMessage]. *)
Lemma route_never_throws (w : World) (request : HybridChatRequest) :
  exists r, fst (route w request) = Fulfilled r.
Proof. destruct (route_routed w request) as [r [Hr _]]. now exists r. Qed.

(** The order of the backend calls along each branch of the tree. *)
Lemma Routed_calls request sessionId xs r :
  Routed request sessionId xs r ->
  In (map exchange_backend xs)
     (if gemini_goes_first request
      then if dataset_allowed request
           then [ [GenerativeBackend];
                  [GenerativeBackend; DatasetBackend];
                  [GenerativeBackend; DatasetBackend; GenerativeBackend] ]
           else [ [GenerativeBackend];
                  [GenerativeBackend; GenerativeBackend] ]
      else [ [DatasetBackend]; [DatasetBackend; GenerativeBackend] ]).
Proof.
  intros HR.
  destruct HR as [a d rt ts ts' Hg _ _
                 | pre a d rt ts ts' Hpre Hd _ _
                 | pre o g r Hpre Hd _ _
                 | pre g r Hpre Hd _];
    try (destruct Hpre as [Hg | g1 Hg _]);
    try (rewrite (dataset_allowed_when_first _ Hg) in Hd);
    rewrite Hg; try rewrite Hd; try discriminate; simpl; auto.
  destruct (dataset_allowed request); simpl; auto.
Qed.

(** ** Which backend is attempted first *)

(** C4: the dataset backend is attempted first exactly when
    [use_dataset] is true and the message is a support query; in every
    other case the generative backend is attempted first. *)
Theorem first_attempted_backend (w : World) (request : HybridChatRequest) :
  first_attempted (snd (route w request)) =
    Some (if truthy_bool (hreq_use_dataset request)
             && HybridChatService.isCustomerSupportQuery (hreq_message request)
          then DatasetBackend else GenerativeBackend)
  /\ (first_attempted (snd (route w request)) = Some DatasetBackend <->
      hreq_use_dataset request = Some true
      /\ HybridChatService.isCustomerSupportQuery (hreq_message request) = true).
Proof.
  assert (E : first_attempted (snd (route w request)) =
              Some (if gemini_goes_first request
                    then GenerativeBackend else DatasetBackend)).
  { destruct (route_routed w request) as [r [_ HR]].
    apply Routed_calls in HR. unfold exchanges in HR.
    rewrite backend_calls_exchanges in HR. unfold first_attempted.
    destruct (gemini_goes_first request), (dataset_allowed request);
      simpl in HR; intuition (subst; try match goal with
                                         | H : _ = backend_calls _ |- _ => rewrite <- H
                                         end; reflexivity). }
  rewrite E, dataset_first_negb, <- truthy_bool_true, <- andb_true_iff,
    dataset_first_negb.
  destruct (gemini_goes_first request); simpl; split; try reflexivity;
    split; congruence.
Qed.

(** ** How many backend calls one call issues *)

(** C2, as the code has it: a call issues at most three backend calls,
    at most one of them to the dataset backend and at most two to the
    generative backend; when the dataset backend goes first there are
    at most two, and the only order with three is generative, dataset,
    generative. *)
Theorem backend_calls_bound (w : World) (request : HybridChatRequest) :
  In (backend_calls (snd (route w request)))
     (if gemini_goes_first request
      then if dataset_allowed request
           then [ [GenerativeBackend];
                  [GenerativeBackend; DatasetBackend];
                  [GenerativeBackend; DatasetBackend; GenerativeBackend] ]
           else [ [GenerativeBackend];
                  [GenerativeBackend; GenerativeBackend] ]
      else [ [DatasetBackend]; [DatasetBackend; GenerativeBackend] ])
  /\ (List.length (backend_calls (snd (route w request))) <= 3)%nat
  /\ (calls_to DatasetBackend (snd (route w request)) <= 1)%nat
  /\ (calls_to GenerativeBackend (snd (route w request)) <= 2)%nat.
Proof.
  destruct (route_routed w request) as [r [_ HR]].
  apply Routed_calls in HR. unfold exchanges in HR.
  rewrite backend_calls_exchanges in HR.
  split; [exact HR|]. unfold calls_to.
  destruct (gemini_goes_first request), (dataset_allowed request);
    simpl in HR;
    repeat match goal with
           | H : _ \/ _ |- _ => destruct H as [H | H]
           | H : False |- _ => contradiction
           | H : _ = backend_calls _ |- _ => rewrite <- H; clear H
           end;
    simpl; lia.
Qed.

(** C2 fails as stated: with [use_dataset] true, a message without a
    support keyword, a relay that answers with an error envelope and a
    dataset backend that is down, one call issues three backend calls. *)
Lemma three_backend_calls :
  backend_calls (snd (route Samples.unconfigured Samples.joke_with_dataset))
  = [GenerativeBackend; DatasetBackend; GenerativeBackend]
  /\ List.length
       (backend_calls (snd (route Samples.unconfigured Samples.joke_with_dataset)))
     = 3%nat.
Proof. split; reflexivity. Qed.

(** ** Fallback before an error *)


(** Where the dataset backend is allowed (line 54), an error result
    does come after both backends were attempted. *)
Lemma error_after_both_attempts (w : World) (request : HybridChatRequest)
    (r : ApiResponse HybridChatResponse) :
  dataset_allowed request = true ->
  fst (route w request) = Fulfilled r ->
  status r = Error ->
  (calls_to DatasetBackend (snd (route w request)) = 1)%nat
  /\ (1 <= calls_to GenerativeBackend (snd (route w request)))%nat.
Proof.
  intros Hd Hr Hs.
  destruct (route_routed w request) as [r' [Hr' HR]].
  rewrite Hr in Hr'. injection Hr' as <-.
  unfold calls_to. rewrite <- (backend_calls_exchanges w _ []).
  fold (exchanges w (snd (route w request))).
  destruct HR as [a d rt ts ts' Hg _ _
                 | pre a d rt ts ts' Hpre _ _ _
                 | pre o g r Hpre _ _ HF
                 | pre g r Hpre Hd' HF];
    try discriminate Hs; try congruence.
  destruct Hpre; simpl; lia.
Qed.

(** ** When both backends fail *)




(** ** Confidence and source *)

(** C5 fails as stated: a dataset answer without a confidence gives a
    response whose source is the dataset and which carries none. *)
Lemma dataset_response_without_confidence :
  exists r d,
    fst (route (Samples.both_up None) Samples.refund) = Fulfilled r
    /\ data r = Some d
    /\ source d = Dataset
    /\ confidence d = None.
Proof. eexists. eexists. repeat split; reflexivity. Qed.

(** C5, as the code has it: a response from the generative source
    carries no confidence; a response from the dataset source carries
    what the dataset backend's answer carried, which may be nothing. *)
Theorem confidence_follows_source (w : World) (request : HybridChatRequest)
    (r : ApiResponse HybridChatResponse) (d : HybridChatResponse) :
  fst (route w request) = Fulfilled r ->
  data r = Some d ->
  match source d with
  | Gemini => confidence d = None
  | Dataset =>
      exists q a c,
        In (DatasetAnswered q (Fulfilled a)) (exchanges w (snd (route w request)))
        /\ data a = Some c
        /\ confidence d = cres_confidence c
  end.
Proof.
  intros Hr Hdata.
  destruct (route_routed w request) as [r' [Hr' HR]].
  rewrite Hr in Hr'. injection Hr' as <-.
  assert (Hfinal : forall g, Final (session_of w request) g r ->
                             source d = Gemini /\ confidence d = None).
  { intros g HF. destruct HF; simpl in Hdata; try discriminate;
      injection Hdata as <-; split; reflexivity. }
  destruct HR as [a d0 rt ts ts' _ _ _
                 | pre a d0 rt ts ts' _ _ _ Ha
                 | pre o g r _ _ _ HF
                 | pre g r _ _ HF].
  - simpl in Hdata. injection Hdata as <-. reflexivity.
  - simpl in Hdata. injection Hdata as <-. simpl.
    exists (dataset_request request (session_of w request)), a, d0.
    split; [|split; [exact Ha | reflexivity]].
    apply in_or_app. right. left. reflexivity.
  - destruct (Hfinal g HF) as [-> Hc]. exact Hc.
  - destruct (Hfinal g HF) as [-> Hc]. exact Hc.
Qed.

(** A dataset answer with confidence 0.75 to a refund question. *)
Lemma confidence_follows_source_dataset :
  exists q a c,
    In (DatasetAnswered q (Fulfilled a))
       (exchanges (Samples.both_up (Some 0.75%float))
          (snd (route (Samples.both_up (Some 0.75%float)) Samples.refund)))
    /\ data a = Some c
    /\ Some 0.75%float = cres_confidence c.
Proof.
  exact (confidence_follows_source (Samples.both_up (Some 0.75%float))
           Samples.refund _ _ eq_refl eq_refl).
Defined.

(** ** The session id *)

Lemma Routed_session_id request sessionId xs r d :
  Routed request sessionId xs r -> data r = Some d -> session_id d = sessionId.
Proof.
  intros HR Hdata.
  assert (Hfinal : forall g, Final sessionId g r -> session_id d = sessionId).
  { intros g HF. destruct HF; simpl in Hdata; try discriminate;
      injection Hdata as <-; reflexivity. }
  destruct HR as [? ? ? ? ? _ _ _ | ? ? ? ? ? ? _ _ _ _ | ? ? g ? _ _ _ HF | ? g ? _ _ HF];
    try (apply (Hfinal g HF));
    simpl in Hdata; injection Hdata as <-; reflexivity.
Qed.

(** C8: an empty [session_id] is treated as an absent one, and the
    response then carries a freshly generated token; a non-empty
    [session_id] is echoed unchanged. *)
Theorem session_id_echoed_or_fresh (w : World) (request : HybridChatRequest)
    (r : ApiResponse HybridChatResponse) (d : HybridChatResponse) :
  fst (route w request) = Fulfilled r ->
  data r = Some d ->
  session_id d = match hreq_session_id request with
                 | Some (String c s) => String c s
                 | Some EmptyString | None => fresh_token w
                 end
  /\ route w (with_session_id request (Some ""))
     = route w (with_session_id request None).
Proof.
  intros Hr Hdata. split; [|reflexivity].
  destruct (route_routed w request) as [r' [Hr' HR]].
  rewrite Hr in Hr'. injection Hr' as <-.
  rewrite (Routed_session_id _ _ _ _ _ HR Hdata).
  unfold session_of. destruct (hreq_session_id request) as [[|c s]|]; reflexivity.
Qed.

(** The page's first message goes out with the empty session id. *)
Lemma session_id_fresh_for_empty :
  exists r d,
    fst (route (Samples.both_up None) Samples.refund) = Fulfilled r
    /\ data r = Some d
    /\ hreq_session_id Samples.refund = Some ""
    /\ session_id d = "82mvyr".
Proof.
  eexists. eexists. split; [reflexivity|]. split; [reflexivity|].
  split; [reflexivity|].
  exact (proj1 (session_id_echoed_or_fresh (Samples.both_up None)
                  Samples.refund _ _ eq_refl eq_refl)).
Defined.

(** The generated token is what is left of the draw after its first
    seven characters: nothing, for a short draw. *)
Example session_id_short_draw :
  fresh_token Samples.short_draw = ""
  /\ exists r d,
       fst (route Samples.short_draw Samples.refund) = Fulfilled r
       /\ data r = Some d
       /\ session_id d = "".
Proof. split; [reflexivity|]. eexists. eexists. repeat split; reflexivity. Qed.

Example session_id_echo :
  exists r d,
    fst (route Samples.unconfigured Samples.joke_with_dataset) = Fulfilled r
    /\ data r = Some d
    /\ session_id d = "s1".
Proof. eexists. eexists. repeat split; reflexivity. Qed.

(** ** The model type sent to the dataset backend *)

(** C9: every request forwarded to the dataset backend carries the
    request's [model_type], and [enhanced] when the request has none. *)
Theorem dataset_model_type (w : World) (request : HybridChatRequest)
    (q : ChatRequest) :
  In q (dataset_requests (snd (route w request))) ->
  creq_model_type q = Some (match hreq_model_type request with
                            | Some m => m
                            | None => Enhanced
                            end).
Proof.
  intros Hin.
  destruct (dataset_requests_exchanges w q _ [] Hin) as [o Ho].
  fold (exchanges w (snd (route w request))) in Ho.
  destruct (route_routed w request) as [r [_ HR]].
  assert (Hq : forall xs, (forall x, In x xs -> exchange_backend x = GenerativeBackend) ->
               In (DatasetAnswered q o) xs -> False).
  { intros xs Hall Hx. apply Hall in Hx. discriminate. }
  assert (Hpre : forall pre, FirstFailed request (session_of w request) pre ->
                 forall x, In x pre -> exchange_backend x = GenerativeBackend).
  { intros pre HF x Hx. destruct HF; [contradiction|].
    destruct Hx as [<- | []]. reflexivity. }
  destruct HR as [a d rt ts ts' _ _ _
                 | pre a d rt ts ts' HF _ _ _
                 | pre o' g r HF _ _ _
                 | pre g r HF _ _].
  - destruct Ho as [Ho | []]. discriminate.
  - apply in_app_or in Ho. destruct Ho as [Ho | [Ho | []]].
    + destruct (Hq _ (Hpre _ HF) Ho).
    + injection Ho as <- _. reflexivity.
  - apply in_app_or in Ho. destruct Ho as [Ho | [Ho | [Ho | []]]].
    + destruct (Hq _ (Hpre _ HF) Ho).
    + injection Ho as <- _. reflexivity.
    + discriminate.
  - apply in_app_or in Ho. destruct Ho as [Ho | [Ho | []]].
    + destruct (Hq _ (Hpre _ HF) Ho).
    + discriminate.
Qed.

(** A refund question without [model_type] reaches the dataset backend
    as [enhanced]. *)
Lemma dataset_model_type_default :
  creq_model_type (dataset_request Samples.refund "82mvyr") = Some Enhanced.
Proof.
  apply (dataset_model_type (Samples.both_up None) Samples.refund
           (dataset_request Samples.refund "82mvyr")).
  left. reflexivity.
Defined.

Example dataset_model_type_explicit :
  dataset_requests (snd (route Samples.unconfigured Samples.joke_with_dataset))
  = [ {| creq_message := "tell me a joke";
         creq_model_type := Some Basic;
         creq_session_id := Some "s1" |} ].
Proof. reflexivity. Qed.

(** ** [healthCheck] *)

Lemma probe_status_true {T} (o : Outcome (ApiResponse T)) :
  HybridChatService.probe_status o = true <-> ProbeSucceeds o.
Proof.
  unfold ProbeSucceeds. destruct o as [e | [[|] m d ts]]; simpl; split;
    try discriminate; try reflexivity.
  - intros [r [H _]]. discriminate.
  - intros _. eexists. split; reflexivity.
  - intros [r [H Hs]]. injection H as <-. discriminate.
Qed.

Lemma health_run (w : World) :
  fst (health w) =
    Fulfilled
      {| status := if HybridChatService.probe_status (dataset_probe w)
                      || HybridChatService.probe_status (gemini_probe w)
                   then Success else Error;
         message := Some (if HybridChatService.probe_status (dataset_probe w)
                             && HybridChatService.probe_status (gemini_probe w)
                          then "Both services available"
                          else if HybridChatService.probe_status (dataset_probe w)
                          then "Dataset backend only"
                          else if HybridChatService.probe_status (gemini_probe w)
                          then "Gemini API only"
                          else "No services available");
         data := Some {| dataset_backend :=
                           HybridChatService.probe_status (dataset_probe w);
                         gemini_api :=
                           HybridChatService.probe_status (gemini_probe w);
                         hybrid_mode :=
                           HybridChatService.probe_status (dataset_probe w)
                           && HybridChatService.probe_status (gemini_probe w) |};
         timestamp := Some (clock_iso w [EvDatasetHealth; EvGeminiHealth]) |}.
Proof. reflexivity. Qed.

(** C6: [hybrid_mode] is true exactly when both probes succeed, and
    each backend's flag is true exactly when its own probe succeeds,
    whatever the other probe does. *)
Theorem healthCheck_flags (w : World) :
  exists r d,
    fst (health w) = Fulfilled r
    /\ data r = Some d
    /\ (hybrid_mode d = true <->
        ProbeSucceeds (dataset_probe w) /\ ProbeSucceeds (gemini_probe w))
    /\ (dataset_backend d = true <-> ProbeSucceeds (dataset_probe w))
    /\ (gemini_api d = true <-> ProbeSucceeds (gemini_probe w))
    /\ (forall w' r' d',
          fst (health w') = Fulfilled r' -> data r' = Some d' ->
          (dataset_probe w' = dataset_probe w ->
           dataset_backend d' = dataset_backend d)
          /\ (gemini_probe w' = gemini_probe w ->
              gemini_api d' = gemini_api d)).
Proof.
  eexists. eexists. split; [apply health_run|]. split; [reflexivity|].
  cbn [hybrid_mode dataset_backend gemini_api].
  rewrite andb_true_iff, !probe_status_true.
  repeat (split; [tauto|]).
  intros w' r' d' Hr' Hd'. rewrite health_run in Hr'. injection Hr' as <-.
  simpl in Hd'. injection Hd' as <-. simpl.
  split; intros E; now rewrite E.
Qed.

(** C10: the status of [healthCheck]'s answer is success exactly when
    at least one probe succeeds and error exactly when both fail; the
    flags are reported in either case. *)
Theorem healthCheck_status (w : World) :
  exists r d,
    fst (health w) = Fulfilled r
    /\ data r = Some d
    /\ (status r = Success <->
        ProbeSucceeds (dataset_probe w) \/ ProbeSucceeds (gemini_probe w))
    /\ (status r = Error <->
        ~ ProbeSucceeds (dataset_probe w) /\ ~ ProbeSucceeds (gemini_probe w)).
Proof.
  eexists. eexists. split; [apply health_run|]. split; [reflexivity|].
  cbn [status]. rewrite <- !probe_status_true.
  destruct (HybridChatService.probe_status (dataset_probe w)),
    (HybridChatService.probe_status (gemini_probe w)); simpl;
    repeat split; try discriminate; try tauto; intuition discriminate.
Qed.

Example health_offline :
  exists r d,
    fst (health Samples.offline) = Fulfilled r
    /\ data r = Some d
    /\ status r = Error
    /\ dataset_backend d = false /\ gemini_api d = false /\ hybrid_mode d = false.
Proof. eexists. eexists. repeat split; reflexivity. Qed.

Example health_dataset_only :
  exists r d,
    fst (health Samples.dataset_only) = Fulfilled r
    /\ data r = Some d
    /\ status r = Success
    /\ dataset_backend d = true /\ gemini_api d = false /\ hybrid_mode d = false.
Proof. eexists. eexists. repeat split; reflexivity. Qed.

(** ** The dataset backend's client *)

Lemma includes_app_r (a b k : string) :
  JsString.includes b k = true -> JsString.includes (a ++ b) k = true.
Proof.
  rewrite !includes_spec. intros [pre [post ->]].
  exists (a ++ pre), post.
  induction a as [|c a IH]; simpl; [reflexivity | now rewrite IH].
Qed.

(** What the [catch] of [makeRequest] lets through. *)
Lemma makeRequest_catch {T} (f : ApiService.Fetch T) (now : string) :
  match ApiService.makeRequest f now with
  | Fulfilled r => ApiService.makeRequest_try f now = Fulfilled r
  | Rejected e => (exists e0, ApiService.makeRequest_try f now = Rejected e0)
                  /\ exists name msg, e = ThrownError name msg
  end.
Proof.
  unfold ApiService.makeRequest, ApiService.new_Error.
  destruct (ApiService.makeRequest_try f now) as [[name msg | v] | r].
  - destruct (String.eqb name "AbortError"); [|destruct (JsString.includes msg "fetch")];
      (split; [eexists; reflexivity | eexists; eexists; reflexivity]).
  - split; [eexists; reflexivity | eexists; eexists; reflexivity].
  - reflexivity.
Qed.

Lemma makeRequest_fulfilled_inv {T} (f : ApiService.Fetch T) (now : string)
    (r : ApiResponse T) :
  ApiService.makeRequest f now = Fulfilled r ->
  exists code statusText d,
    f = ApiService.FetchResponded true code statusText (Fulfilled d)
    /\ r = {| status := Success; message := None; data := d;
              timestamp := Some now |}.
Proof.
  intros H. pose proof (makeRequest_catch f now) as Hc. rewrite H in Hc.
  revert Hc. unfold ApiService.makeRequest_try, ApiService.new_Error.
  destruct f as [e | [|] code statusText json]; try discriminate; cbn [negb].
  - destruct json as [e | d]; [discriminate|]. intros E. injection E as <-.
    exists code, statusText, d. split; reflexivity.
  - destruct (code =? 429)%nat, (code =? 404)%nat, (500 <=? code)%nat; discriminate.
Qed.

(** X1: [makeRequest] is fulfilled exactly when the response is 2xx and
    its body parses; the answer then has status success and the parsed
    body as data.  Every other case is a rejection, and always with an
    [Error] object. *)
Theorem makeRequest_fulfilled_iff {T} (f : ApiService.Fetch T) (now : string) :
  (forall r,
     ApiService.makeRequest f now = Fulfilled r <->
     exists code statusText d,
       f = ApiService.FetchResponded true code statusText (Fulfilled d)
       /\ r = {| status := Success; message := None; data := d;
                 timestamp := Some now |})
  /\ (forall e,
        ApiService.makeRequest f now = Rejected e ->
        exists name msg, e = ThrownError name msg).
Proof.
  split.
  - intros r. split; [apply makeRequest_fulfilled_inv|].
    intros [code [statusText [d [-> ->]]]]. reflexivity.
  - intros e H. pose proof (makeRequest_catch f now) as Hc. rewrite H in Hc.
    exact (proj2 Hc).
Qed.

(** A response that is not 2xx is rejected without its body being
    read: 429, 404 and 5xx with their fixed messages, any other status
    with [HTTP code: statusText], which the [catch] turns into the hint
    about the Flask server when it contains [fetch]. *)
Theorem makeRequest_http_error {T} (code : nat) (statusText : string)
    (json : Outcome (option T)) (now : string) :
  ApiService.makeRequest (ApiService.FetchResponded false code statusText json) now =
  Rejected
    (ThrownError "Error"
       (if (code =? 429)%nat
        then "Rate limit exceeded. Please wait before trying again."
        else if (code =? 404)%nat
        then "API endpoint not found. Please check if the backend is running."
        else if (500 <=? code)%nat
        then "Server error. Please try again later."
        else if JsString.includes
                  ("HTTP " ++ ApiService.string_of_nat code ++ ": " ++ statusText)
                  "fetch"
        then "Unable to connect to the backend. Please ensure the Flask server is running on http://localhost:5000"
        else "HTTP " ++ ApiService.string_of_nat code ++ ": " ++ statusText)).
Proof.
  unfold ApiService.makeRequest, ApiService.makeRequest_try, ApiService.new_Error.
  cbn [negb].
  destruct (code =? 429)%nat; [reflexivity|].
  destruct (code =? 404)%nat; [reflexivity|].
  destruct (500 <=? code)%nat; [reflexivity|].
  change (String.eqb "Error" "AbortError") with false. cbv iota.
  destruct (JsString.includes _ "fetch"); reflexivity.
Qed.

Example makeRequest_masked_status :
  ApiService.makeRequest
    (ApiService.FetchResponded false 400 "Prefetch not allowed" (@Rejected (option Json) (ThrownValue "")))
    "t"
  = Rejected (ThrownError "Error"
      "Unable to connect to the backend. Please ensure the Flask server is running on http://localhost:5000").
Proof. reflexivity. Qed.

Lemma makeRequest_is_fulfilled {T} (f : ApiService.Fetch T) (now : string) :
  is_fulfilled (ApiService.makeRequest f now) = true <-> flask_succeeded f.
Proof.
  unfold flask_succeeded. split.
  - destruct (ApiService.makeRequest f now) as [e | r] eqn:E; [discriminate|].
    intros _. apply makeRequest_fulfilled_inv in E.
    destruct E as [code [statusText [d [-> _]]]]. now exists code, statusText, d.
  - intros [code [statusText [d ->]]]. reflexivity.
Qed.

Lemma makeRequest_chat_ok {T} (f : ApiService.Fetch T) (now : string) :
  chat_ok (ApiService.makeRequest f now) = flask_chat_ok f.
Proof.
  destruct (ApiService.makeRequest f now) as [e | r] eqn:E.
  - destruct f as [e0 | [|] code statusText [e1 | [d|]]]; try reflexivity; discriminate.
  - apply makeRequest_fulfilled_inv in E.
    destruct E as [code [statusText [[d|] [-> ->]]]]; reflexivity.
Qed.

(** X2: [ApiService.testConnection] never rejects.  It reports
    connected exactly when the [/health] request came back 2xx with a
    body that parses, and carries an error message exactly when it
    reports not connected. *)
Theorem testConnection_connected_iff (f : ApiService.Fetch Json) (now : string) :
  exists c,
    ApiServiceCalls.testConnection f now = Fulfilled c
    /\ (connected c = true <-> flask_succeeded f)
    /\ (connection_error c = None <-> connected c = true).
Proof.
  unfold ApiServiceCalls.testConnection, ApiServiceCalls.healthCheck.
  pose proof (makeRequest_is_fulfilled f now) as Hf.
  destruct (ApiService.makeRequest f now) as [e | r]; eexists;
    (split; [reflexivity|]); simpl in *; split.
  - rewrite <- Hf. reflexivity.
  - split; congruence.
  - rewrite <- Hf. reflexivity.
  - split; congruence.
Qed.

Lemma gemini_healthCheck_success (f : GeminiApiService.Fetch Json) (now : string) :
  exists r,
    GeminiApiService.healthCheck f now = Fulfilled r
    /\ (status r = Success <-> relay_succeeded f).
Proof.
  unfold GeminiApiService.healthCheck, GeminiApiService.testConnection,
    GeminiApiService.fetched, relay_succeeded.
  destruct f as [e | [e | [[|] m d ts]]]; eexists; (split; [reflexivity|]); simpl.
  - split; [discriminate | intros [r [H _]]; discriminate].
  - split; [discriminate | intros [r [H _]]; discriminate].
  - split; [intros _; eexists; split; reflexivity | reflexivity].
  - split; [discriminate | intros [r [H Hs]]; injection H as <-; discriminate].
Qed.

(** X3: [GeminiApiService.healthCheck] never rejects, and its status is
    success exactly when the relay's body was read and says success;
    a failed [fetch] or an unreadable body gives status error with a
    message that is not empty. *)
Theorem gemini_healthCheck_status (f : GeminiApiService.Fetch Json) (now : string) :
  exists r,
    GeminiApiService.healthCheck f now = Fulfilled r
    /\ (status r = Success <-> relay_succeeded f)
    /\ (~ (exists body, f = GeminiApiService.FetchResponded (Fulfilled body)) ->
        status r = Error /\ exists msg, message r = Some msg /\ msg <> "").
Proof.
  destruct (gemini_healthCheck_success f now) as [r [Hr Hs]].
  exists r. split; [exact Hr|]. split; [exact Hs|].
  assert (Hmsg : forall e, GeminiApiService.message_or e "Network error" <> "").
  { intros [name [|c msg] | v]; discriminate. }
  revert Hr. unfold GeminiApiService.healthCheck, GeminiApiService.testConnection,
    GeminiApiService.fetched.
  destruct f as [e | [e | body]]; intros Hr; injection Hr as <-; intros H; simpl.
  - split; [reflexivity|]. eexists. split; [reflexivity | apply Hmsg].
  - split; [reflexivity|]. eexists. split; [reflexivity | apply Hmsg].
  - exfalso. apply H. eexists. reflexivity.
Qed.

(** ** The router over the shipped clients *)





(** A call whose every exchange failed ends in the final fallback. *)
Lemma Routed_all_failed request sessionId xs r :
  Routed request sessionId xs r ->
  (forall x, In x xs -> exchange_ok x = false) ->
  exists q g,
    In (GeminiAnswered q g) xs /\ Final sessionId g r /\ chat_ok g = false.
Proof.
  intros HR Hfail.
  destruct HR as [a d rt ts ts' _ Hs Hdata
                 | pre a d rt ts ts' _ _ Hs Hdata
                 | pre o g r _ _ _ HF
                 | pre g r _ _ HF].
  - specialize (Hfail _ (or_introl eq_refl)). simpl in Hfail.
    rewrite Hs, Hdata in Hfail. discriminate.
  - assert (Hin : In (DatasetAnswered (dataset_request request sessionId) (Fulfilled a))
                     (pre ++ [DatasetAnswered (dataset_request request sessionId)
                                (Fulfilled a)])%list)
      by (apply in_or_app; right; left; reflexivity).
    specialize (Hfail _ Hin). simpl in Hfail.
    rewrite Hs, Hdata in Hfail. discriminate.
  - assert (Hin : In (GeminiAnswered (gemini_request request sessionId) g)
                     (pre ++ [DatasetAnswered (dataset_request request sessionId) o;
                              GeminiAnswered (gemini_request request sessionId) g])%list)
      by (apply in_or_app; right; right; left; reflexivity).
    exists (gemini_request request sessionId), g.
    split; [exact Hin|]. split; [exact HF|]. apply (Hfail _ Hin).
  - assert (Hin : In (GeminiAnswered (gemini_request request sessionId) g)
                     (pre ++ [GeminiAnswered (gemini_request request sessionId) g])%list)
      by (apply in_or_app; right; left; reflexivity).
    exists (gemini_request request sessionId), g.
    split; [exact Hin|]. split; [exact HF|]. apply (Hfail _ Hin).
Qed.

(** When every call of either backend fails and the generative client
    returns each time, the answer is the guidance. *)
Lemma route_guidance_in_band (w : World) (request : HybridChatRequest) :
  (forall h q, chat_ok (gemini_chat w h q) = false) ->
  (forall h q, is_fulfilled (gemini_chat w h q) = true) ->
  (forall h q, chat_ok (dataset_chat w h q) = false) ->
  exists r d,
    fst (route w request) = Fulfilled r
    /\ status r = Success
    /\ data r = Some d
    /\ response d = HybridChatService.guidance
    /\ source d = Gemini
    /\ confidence d = None.
Proof.
  intros Hbad Hret Hdata.
  destruct (route_routed w request) as [r [Hr HR]].
  destruct (Routed_all_failed _ _ _ _ HR) as [q [g [Hin [HF Hg]]]].
  - intros x Hx. generalize (exchanges_from_world _ _ _ _ Hx).
    destruct x as [q o | q o]; intros [p ->]; simpl; auto.
  - apply exchanges_from_world in Hin. destruct Hin as [p ->].
    specialize (Hret p q).
    inversion HF as [a' d rt ts ts' Hs Hd Ha | a' rt ts ts' _ Ha | e ts Ha]; subst.
    + rewrite <- Ha in Hg. simpl in Hg. rewrite Hs, Hd in Hg. discriminate.
    + eexists. eexists. split; [exact Hr|]. repeat split; reflexivity.
    + rewrite <- Ha in Hret. discriminate.
Qed.



(** X6: with the shipped clients, [healthCheck] reports the dataset
    backend available exactly when the [/health] request came back 2xx
    with a body that parses, and the generative backend available
    exactly when the relay's body was read and says success; the
    generative probe is never a rejection. *)
Theorem health_shipped_flags (n : Network) :
  exists r d,
    fst (health (shipped n)) = Fulfilled r
    /\ data r = Some d
    /\ (dataset_backend d = true <-> flask_succeeded (flask_health n []))
    /\ (gemini_api d = true <-> relay_succeeded (relay_health n [EvDatasetHealth]))
    /\ is_fulfilled (gemini_probe (shipped n)) = true.
Proof.
  eexists. eexists. split; [apply health_run|]. split; [reflexivity|].
  cbn [dataset_backend gemini_api]. rewrite !probe_status_true.
  unfold dataset_probe, gemini_probe. cbn [shipped dataset_health gemini_health].
  destruct (gemini_healthCheck_success (relay_health n [EvDatasetHealth])
              (net_clock_iso n [EvDatasetHealth])) as [g [Hg Hgs]].
  rewrite Hg. split; [|split; [|reflexivity]].
  - unfold ApiServiceCalls.healthCheck, ProbeSucceeds. split.
    + intros [r [Hr _]]. apply makeRequest_is_fulfilled with (now := net_clock_iso n []).
      now rewrite Hr.
    + intros [code [statusText [d ->]]]. eexists. split; reflexivity.
  - unfold ProbeSucceeds. rewrite <- Hgs. split.
    + intros [r [Hr Hs]]. injection Hr as ->. exact Hs.
    + intros Hs. exists g. auto.
Qed.

(** X7: [getModelStatus] over the shipped clients always answers with
    status success and the generative model description; its
    [hybrid_mode] is true exactly when the Flask [/model-status]
    request succeeded, whatever the state of the generative backend. *)
Theorem getModelStatus_shipped (f : ApiService.Fetch Json) (t t' t'' now : string) :
  exists r d g,
    hybrid_getModelStatus (ApiServiceCalls.getModelStatus f t)
      (GeminiApiService.getModelStatus t' t'') now = Fulfilled r
    /\ status r = Success
    /\ data r = Some d
    /\ gemini_model d = Some g
    /\ (models_hybrid_mode d = true <-> flask_succeeded f)
    /\ (dataset_models d <> None -> flask_succeeded f).
Proof.
  unfold hybrid_getModelStatus, ApiServiceCalls.getModelStatus.
  eexists. eexists. eexists. split; [reflexivity|]. split; [reflexivity|].
  split; [reflexivity|]. split; [reflexivity|].
  cbn [models_hybrid_mode dataset_models GeminiApiService.getModelStatus is_fulfilled].
  rewrite andb_true_r, makeRequest_is_fulfilled. split; [reflexivity|].
  intros H. apply makeRequest_is_fulfilled with (now := t).
  destruct (ApiService.makeRequest f t); [contradiction H; reflexivity | reflexivity].
Qed.

(** ** The relay *)

(** X8: every answer of the relay is a well-formed envelope: it has
    status success exactly when it carries data, status error exactly
    when it carries a message, and it always carries a timestamp. *)
Theorem POST_envelope (s : GeminiRoute.Server) (parsed : Outcome GeminiRoute.Body) :
  (status (GeminiRoute.POST s parsed) = Success <->
   data (GeminiRoute.POST s parsed) <> None)
  /\ (status (GeminiRoute.POST s parsed) = Error <->
      message (GeminiRoute.POST s parsed) <> None)
  /\ timestamp (GeminiRoute.POST s parsed) = Some (GeminiRoute.now_iso s).
Proof.
  assert (Hfail : forall msg,
            let r := GeminiRoute.failure msg s in
            (status r = Success <-> data r <> None)
            /\ (status r = Error <-> message r <> None)
            /\ timestamp r = Some (GeminiRoute.now_iso s)).
  { intros msg. simpl. repeat split; try congruence; discriminate. }
  unfold GeminiRoute.POST.
  destruct (GeminiRoute.getApiKey s); [|apply Hfail].
  destruct (_ || _).
  - unfold GeminiRoute.POST_health.
    destruct (GeminiRoute.generateContent s "ping") as [e | t]; [apply Hfail|].
    destruct (JsString.truthy t); simpl; repeat split; try congruence; discriminate.
  - destruct (GeminiRoute.action_is _ "translate").
    + unfold GeminiRoute.POST_translate.
      destruct (GeminiRoute.text _) as [t|]; [|apply Hfail].
      destruct (GeminiRoute.target_language _) as [l|]; [|apply Hfail].
      destruct (JsString.truthy t); [|apply Hfail].
      destruct (GeminiRoute.generateContent s _); [apply Hfail|].
      simpl; repeat split; try congruence; discriminate.
    + unfold GeminiRoute.POST_send.
      destruct (GeminiRoute.body_message _) as [m|]; [|apply Hfail].
      destruct (JsString.truthy m); [|apply Hfail].
      destruct (GeminiRoute.generateContent s _); [apply Hfail|].
      simpl; repeat split; try congruence; discriminate.
Qed.

(** Without a credential (unset or empty), the relay answers
    every request, whatever its action and body, with the same error
    envelope, and the model plays no part. *)
Theorem POST_without_key (s s' : GeminiRoute.Server)
    (parsed parsed' : Outcome GeminiRoute.Body) :
  truthy_string (GeminiRoute.NEXT_PUBLIC_GEMINI_API_KEY s) = false ->
  truthy_string (GeminiRoute.NEXT_PUBLIC_GEMINI_API_KEY s') = false ->
  GeminiRoute.now_iso s = GeminiRoute.now_iso s' ->
  GeminiRoute.POST s parsed = GeminiRoute.POST s' parsed'
  /\ status (GeminiRoute.POST s parsed) = Error
  /\ message (GeminiRoute.POST s parsed) = Some "Gemini API key missing on server".
Proof.
  intros H H' E. unfold GeminiRoute.POST, GeminiRoute.getApiKey.
  rewrite H, H'. unfold GeminiRoute.failure. rewrite E. repeat split.
Qed.

(** ** The whole path *)

Lemma send_body_is_send (q : GeminiChatRequest) (s : GeminiRoute.Server) :
  GeminiRoute.getApiKey s <> None ->
  GeminiRoute.POST s (Fulfilled (GeminiRoute.send_body q))
  = GeminiRoute.POST_send s (GeminiRoute.send_body q).
Proof.
  intros H. unfold GeminiRoute.POST. destruct (GeminiRoute.getApiKey s); [|congruence].
  reflexivity.
Qed.

(** A call that asks the generative backend first and gets an answer
    returns that answer and asks nothing else. *)
Lemma Routed_first_answer request sessionId xs r (P : GeminiChatResponse -> Prop) :
  Routed request sessionId xs r ->
  gemini_goes_first request = true ->
  (forall q g, In (GeminiAnswered q g) xs ->
               exists a d, g = Fulfilled a /\ status a = Success
                           /\ data a = Some d /\ P d) ->
  exists a d rt ts ts',
    xs = [GeminiAnswered (gemini_request request sessionId) (Fulfilled a)]
    /\ data a = Some d /\ P d
    /\ r = answer sessionId (gres_response d) Gemini None rt ts ts'.
Proof.
  intros HR Hfirst Hall.
  assert (Hpre : forall pre, FirstFailed request sessionId pre ->
                 (forall x, In x pre -> In x xs) -> False).
  { intros pre HF Hsub. destruct HF as [Hn | g _ Hg]; [congruence|].
    destruct (Hall _ g (Hsub _ (or_introl eq_refl))) as [a [d [-> [Hs [Hd _]]]]].
    simpl in Hg. rewrite Hs, Hd in Hg. discriminate. }
  destruct HR as [a d rt ts ts' _ Hs Hd
                 | pre a d rt ts ts' HF _ _ _
                 | pre o g r HF _ _ _
                 | pre g r HF _ _].
  - destruct (Hall _ _ (or_introl eq_refl)) as [a' [d' [E [_ [Hd' HP]]]]].
    injection E as <-. rewrite Hd in Hd'. injection Hd' as <-.
    exists a, d, rt, ts, ts'. auto.
  - destruct (Hpre pre HF). intros x Hx. apply in_or_app. now left.
  - destruct (Hpre pre HF). intros x Hx. apply in_or_app. now left.
  - destruct (Hpre pre HF). intros x Hx. apply in_or_app. now left.
Qed.

(** X9: end to end.  When the server holds a credential and the model
    answers the user's message with [t], a request that goes to the
    generative backend first, with a non-empty message, is answered
    with [t], from the gemini source, after one backend call; the
    model was given the message as it is. *)
Theorem deployed_answer (server : History -> GeminiRoute.Server)
    chat hlth clock_ms clock_iso random36
    (request : HybridChatRequest) (t : string) :
  gemini_goes_first request = true ->
  hreq_message request <> "" ->
  (forall h, GeminiRoute.getApiKey (server h) <> None) ->
  (forall h, GeminiRoute.generateContent (server h) (hreq_message request)
             = Fulfilled t) ->
  exists r d,
    fst (route (shipped (deployed server chat hlth clock_ms clock_iso random36))
           request) = Fulfilled r
    /\ status r = Success
    /\ data r = Some d
    /\ response d = t
    /\ source d = Gemini
    /\ backend_calls
         (snd (route (shipped (deployed server chat hlth clock_ms clock_iso random36))
                 request))
       = [GenerativeBackend].
Proof.
  intros Hfirst Hmsg Hkey Hmodel.
  set (w := shipped (deployed server chat hlth clock_ms clock_iso random36)).
  destruct (route_routed w request) as [r [Hr HR]].
  destruct (Routed_first_answer _ _ _ _ (fun d => gres_response d = t) HR Hfirst)
    as [a [d [rt [ts [ts' [Hxs [Hd [Ht ->]]]]]]]].
  - intros q g Hin.
    assert (Hq : greq_message q = hreq_message request).
    { clear - HR Hin.
      assert (Hp : forall pre, FirstFailed request (session_of w request) pre ->
                   forall x, In x pre ->
                   x = GeminiAnswered q g ->
                   q = gemini_request request (session_of w request)).
      { intros pre HF x Hx ->. destruct HF; [contradiction|].
        destruct Hx as [E | []]. now injection E as <-. }
      assert (E : q = gemini_request request (session_of w request)).
      { destruct HR as [? ? ? ? ? _ _ _ | pre ? ? ? ? ? HF _ _ _ | pre ? ? ? HF _ _ _ | pre ? ? HF _ _].
        - destruct Hin as [E | []]. now injection E as <-.
        - apply in_app_or in Hin. destruct Hin as [Hin | [E | []]];
            [apply (Hp _ HF _ Hin eq_refl) | discriminate].
        - apply in_app_or in Hin. destruct Hin as [Hin | [E | [E | []]]];
            [apply (Hp _ HF _ Hin eq_refl) | discriminate | now injection E as <-].
        - apply in_app_or in Hin. destruct Hin as [Hin | [E | []]];
            [apply (Hp _ HF _ Hin eq_refl) | now injection E as <-]. }
      now rewrite E. }
    apply exchanges_from_world in Hin. destruct Hin as [p ->].
    cbn [w shipped gemini_chat deployed relay_send net_clock_iso].
    unfold GeminiApiService.sendMessage, GeminiApiService.post. cbn [GeminiApiService.fetched].
    rewrite send_body_is_send by apply Hkey.
    unfold GeminiRoute.POST_send. cbn [GeminiRoute.send_body GeminiRoute.body_message
      GeminiRoute.target_language GeminiRoute.body_session_id].
    rewrite Hq. destruct (hreq_message request) as [|c m] eqn:Em; [congruence|].
    cbn [JsString.truthy]. rewrite Hmodel.
    eexists. eexists. split; [reflexivity|]. repeat split.
  - exists (answer (session_of w request) (gres_response d) Gemini None rt ts ts').
    eexists. split; [exact Hr|]. split; [reflexivity|]. split; [reflexivity|].
    split; [exact Ht|]. split; [reflexivity|].
    rewrite <- (backend_calls_exchanges w _ []).
    fold (exchanges w (snd (route w request))). rewrite Hxs. reflexivity.
Qed.

Lemma deployed_answer_joke :
  exists r d,
    fst (route (shipped (deployment joking_server)) Samples.joke) = Fulfilled r
    /\ status r = Success
    /\ data r = Some d
    /\ response d = "Why did the chicken cross the road?"
    /\ source d = Gemini
    /\ backend_calls (snd (route (shipped (deployment joking_server)) Samples.joke))
       = [GenerativeBackend].
Proof.
  apply (deployed_answer (fun _ => joking_server)); intros;
    try reflexivity; discriminate.
Defined.

Lemma POST_without_key_sample :
  GeminiRoute.POST keyless_server (Fulfilled (GeminiRoute.send_body
                                                 (gemini_request Samples.joke "s1")))
  = GeminiRoute.POST keyless_server (Fulfilled GeminiRoute.health_body)
  /\ status (GeminiRoute.POST keyless_server
               (Fulfilled (GeminiRoute.send_body (gemini_request Samples.joke "s1"))))
     = Error
  /\ message (GeminiRoute.POST keyless_server
                (Fulfilled (GeminiRoute.send_body (gemini_request Samples.joke "s1"))))
     = Some "Gemini API key missing on server".
Proof.
  apply (POST_without_key keyless_server keyless_server); reflexivity.
Defined.

(** X10: end to end.  When the server holds no credential and the
    Flask server cannot be reached, every request is answered with the
    credential guidance, as a success from the gemini source. *)
Theorem deployed_without_key (server : History -> GeminiRoute.Server)
    chat hlth clock_ms clock_iso random36 (request : HybridChatRequest) :
  (forall h, truthy_string (GeminiRoute.NEXT_PUBLIC_GEMINI_API_KEY (server h)) = false) ->
  (forall h q, flask_chat_ok (chat h q) = false) ->
  exists r d,
    fst (route (shipped (deployed server chat hlth clock_ms clock_iso random36))
           request) = Fulfilled r
    /\ status r = Success
    /\ data r = Some d
    /\ response d = HybridChatService.guidance
    /\ source d = Gemini.
Proof.
  intros Hkey Hflask.
  destruct (route_guidance_in_band
              (shipped (deployed server chat hlth clock_ms clock_iso random36)) request)
    as [r [d [Hr [Hs [Hd [Hg [Hsrc _]]]]]]].
  - intros h q. simpl. unfold GeminiRoute.POST, GeminiRoute.getApiKey.
    rewrite Hkey. reflexivity.
  - intros h q. reflexivity.
  - intros h q. simpl. unfold ApiServiceCalls.sendMessage.
    rewrite makeRequest_chat_ok. apply Hflask.
  - exists r, d. auto.
Qed.

Lemma deployed_without_key_sample :
  exists r d,
    fst (route (shipped (deployment keyless_server)) Samples.joke_with_dataset)
    = Fulfilled r
    /\ status r = Success
    /\ data r = Some d
    /\ response d = HybridChatService.guidance
    /\ source d = Gemini.
Proof.
  apply (deployed_without_key (fun _ => keyless_server)); intros; reflexivity.
Defined.

(** X11: end to end.  [healthCheck] reports the generative backend
    available exactly when the server holds a credential and the model
    answers the ping with a non-empty text. *)
Theorem deployed_health (server : History -> GeminiRoute.Server)
    chat hlth clock_ms clock_iso random36 :
  exists r d,
    fst (health (shipped (deployed server chat hlth clock_ms clock_iso random36)))
    = Fulfilled r
    /\ data r = Some d
    /\ (gemini_api d = true <->
        truthy_string
          (GeminiRoute.NEXT_PUBLIC_GEMINI_API_KEY (server [EvDatasetHealth])) = true
        /\ exists t,
             GeminiRoute.generateContent (server [EvDatasetHealth]) "ping" = Fulfilled t
             /\ t <> "").
Proof.
  eexists. eexists. split; [apply health_run|]. split; [reflexivity|].
  cbn [gemini_api]. unfold gemini_probe.
  cbn [shipped gemini_health deployed relay_health net_clock_iso].
  unfold GeminiApiService.healthCheck, GeminiApiService.testConnection.
  cbn [GeminiApiService.fetched]. cbn [HybridChatService.probe_status status
    connected].
  unfold GeminiRoute.POST, GeminiRoute.getApiKey.
  destruct (truthy_string _) eqn:Hk.
  - destruct (GeminiRoute.NEXT_PUBLIC_GEMINI_API_KEY _) as [k|] eqn:Ek; [|discriminate].
    cbn [GeminiRoute.action_is GeminiRoute.health_body GeminiRoute.action].
    change (String.eqb "health" "health") with true. cbn [orb].
    unfold GeminiRoute.POST_health.
    destruct (GeminiRoute.generateContent _ "ping") as [e | [|c t]]; simpl.
    + split; [discriminate | intros [_ [t [H _]]]; discriminate].
    + split; [discriminate | intros [_ [t [H Ht]]]; injection H as <-; congruence].
    + split; [intros _; split; [reflexivity | eexists; split; [reflexivity | discriminate]]
             | reflexivity].
  - simpl. split; [discriminate | intros [H _]; discriminate].
Qed.

(** ** Locales *)

(** X12: [toIndianLocale] is idempotent: its results are its fixed
    points. *)
Theorem toIndianLocale_idempotent (lang : string) :
  toIndianLocale (toIndianLocale lang) = toIndianLocale lang.
Proof.
  unfold toIndianLocale at 2 3.
  destruct (is_case lang ["en"; "en-IN"; "en_US"; "en-GB"]) eqn:H1; [reflexivity|].
  destruct (is_case lang ["hi"; "hi-IN"]) eqn:H2; [reflexivity|].
  destruct (is_case lang ["te"; "te-IN"]) eqn:H3; [reflexivity|].
  destruct (is_case lang ["ta"; "ta-IN"]) eqn:H4; [reflexivity|].
  unfold toIndianLocale. now rewrite H1, H2, H3, H4.
Qed.

Lemma lower_ascii_idempotent (c : ascii) :
  JsString.lower_ascii (JsString.lower_ascii c) = JsString.lower_ascii c.
Proof.
  destruct c as [[|] [|] [|] [|] [|] [|] [|] [|]]; reflexivity.
Qed.

Lemma toLowerCase_idempotent (s : string) :
  JsString.toLowerCase (JsString.toLowerCase s) = JsString.toLowerCase s.
Proof.
  induction s as [|c s IH]; [reflexivity|].
  simpl. now rewrite lower_ascii_idempotent, IH.
Qed.

Lemma mapLangToBCP47_range (lang : option string) :
  In (TextToSpeechService.mapLangToBCP47 lang) ["hi-IN"; "te-IN"; "ta-IN"; "en-IN"].
Proof.
  unfold TextToSpeechService.mapLangToBCP47.
  repeat match goal with
         | |- context [if ?b then _ else _] => destruct b
         end; simpl; auto.
Qed.

(** X13: [mapLangToBCP47] always gives one of the four Indian tags,
    does not depend on the case of its argument, maps its own results
    to themselves, and is the same function in the speech-output and
    the speech-recognition services. *)
Theorem mapLangToBCP47_spec (lang : option string) :
  In (TextToSpeechService.mapLangToBCP47 lang) ["hi-IN"; "te-IN"; "ta-IN"; "en-IN"]
  /\ SpeechRecognitionService.mapLangToBCP47 lang
     = TextToSpeechService.mapLangToBCP47 lang
  /\ TextToSpeechService.mapLangToBCP47
       (Some (TextToSpeechService.mapLangToBCP47 lang))
     = TextToSpeechService.mapLangToBCP47 lang
  /\ TextToSpeechService.mapLangToBCP47 (option_map JsString.toLowerCase lang)
     = TextToSpeechService.mapLangToBCP47 lang
  /\ toIndianLocale (TextToSpeechService.mapLangToBCP47 lang)
     = TextToSpeechService.mapLangToBCP47 lang.
Proof.
  split; [apply mapLangToBCP47_range|]. split; [|split; [|split]].
  - unfold SpeechRecognitionService.mapLangToBCP47, TextToSpeechService.mapLangToBCP47.
    repeat match goal with
           | |- context [if ?b then _ else _] => destruct b
           end; reflexivity.
  - destruct (mapLangToBCP47_range lang) as [<- | [<- | [<- | [<- | []]]]]; reflexivity.
  - unfold TextToSpeechService.mapLangToBCP47.
    assert (E : JsString.toLowerCase (lang_or_en (option_map JsString.toLowerCase lang))
                = JsString.toLowerCase (lang_or_en lang)).
    { destruct lang as [[|c s]|]; try reflexivity.
      unfold lang_or_en. cbn [option_map truthy_string JsString.truthy JsString.toLowerCase].
      change (String (JsString.lower_ascii c) (JsString.toLowerCase s))
        with (JsString.toLowerCase (String c s)).
      apply toLowerCase_idempotent. }
    now rewrite E.
  - destruct (mapLangToBCP47_range lang) as [<- | [<- | [<- | [<- | []]]]]; reflexivity.
Qed.

(** ** Picking a voice *)

Section PickBestVoice.

Import TextToSpeechService.

Variable voices : list Voice.
Variable targetTag : string.

Let exact : Voice -> bool :=
  lang_test (fun l => String.eqb l (JsString.toLowerCase targetTag)).

Lemma or_else_find_some (p q : Voice -> bool) (v : Voice) :
  or_else (find p voices) (find q voices) = Some v ->
  In v voices /\ (p v = true \/ q v = true).
Proof.
  destruct (find p voices) as [u|] eqn:Hp; simpl.
  - intros E. injection E as <-. apply find_some in Hp. tauto.
  - intros Hq. apply find_some in Hq. tauto.
Qed.

(** X14: [pickBestVoice] finds no voice exactly when no voice is
    loaded, and the voice it picks is one of the loaded ones. *)
Theorem pickBestVoice_total :
  (pickBestVoice voices targetTag = None <-> voices = [])
  /\ (forall v, pickBestVoice voices targetTag = Some v -> In v voices).
Proof.
  unfold pickBestVoice. split.
  - split.
    + repeat match goal with
             | |- context [match or_else ?a ?b with _ => _ end] =>
                 destruct (or_else a b); [discriminate|]
             end.
      destruct voices as [|v l]; [reflexivity|].
      destruct (find default (v :: l)); discriminate.
    + intros ->. reflexivity.
  - intros v.
    repeat match goal with
           | |- context [match or_else ?a ?b with _ => _ end] =>
               let E := fresh "E" in
               destruct (or_else a b) eqn:E;
               [ intros H; injection H as <-;
                 apply or_else_find_some in E; tauto | clear E ]
           end.
    destruct (find default voices) as [u|] eqn:Hd; simpl.
    + intros E. injection E as <-. apply find_some in Hd. tauto.
    + destruct voices as [|u l]; [discriminate|].
      intros E. injection E as <-. now left.
Qed.

(** X15: when some loaded voice has the target tag as its language, up
    to case, the picked voice has it too; and it is an on-device voice
    when some such voice is on device. *)
Theorem pickBestVoice_exact :
  (exists u, In u voices /\ exact u = true) ->
  exists v,
    pickBestVoice voices targetTag = Some v
    /\ In v voices
    /\ exact v = true
    /\ ((exists u, In u voices /\ exact u = true /\ localService u = true) ->
        localService v = true).
Proof.
  intros [u [Hu He]]. unfold pickBestVoice. fold exact.
  destruct (find (fun voice => exact voice && localService voice) voices)
    as [v|] eqn:H1.
  - simpl. exists v. apply find_some in H1. destruct H1 as [Hv Hp].
    apply andb_true_iff in Hp. tauto.
  - destruct (find exact voices) as [v|] eqn:H2.
    + simpl. exists v. apply find_some in H2. destruct H2 as [Hv Hp].
      repeat split; auto.
      intros [u' [Hu' [He' Hl']]]. pose proof (find_none _ _ H1 _ Hu') as Hn.
      simpl in Hn. rewrite He', Hl' in Hn. discriminate.
    + pose proof (find_none _ _ H2 _ Hu) as Hn. simpl in Hn. congruence.
Qed.

End PickBestVoice.

(** ** Listing the voices of a language *)

Section SortBy.

Import TextToSpeechService.

Variable s : Voice -> nat.

Lemma insert_by_perm (v : Voice) (l : list Voice) :
  Permutation (insert_by s v l) (v :: l).
Proof.
  induction l as [|u l IH]; simpl; [reflexivity|].
  destruct (s u <=? s v)%nat; [reflexivity|].
  rewrite IH. apply perm_swap.
Qed.

Lemma sort_by_perm (l : list Voice) : Permutation (sort_by s l) l.
Proof.
  induction l as [|v l IH]; simpl; [reflexivity|].
  rewrite insert_by_perm. now constructor.
Qed.

Lemma insert_by_sorted (v : Voice) (l : list Voice) :
  StronglySorted (fun a b => s b <= s a)%nat l ->
  StronglySorted (fun a b => s b <= s a)%nat (insert_by s v l).
Proof.
  induction 1 as [|u l Hl IH Hu]; simpl.
  - constructor; constructor.
  - destruct (s u <=? s v)%nat eqn:E.
    + apply Nat.leb_le in E. constructor; [constructor; assumption|].
      constructor; [exact E|].
      rewrite Forall_forall in *. intros x Hx. specialize (Hu x Hx). lia.
    + apply Nat.leb_gt in E. constructor; [exact IH|].
      rewrite Forall_forall in *. intros x Hx.
      apply (Permutation_in _ (insert_by_perm v l)) in Hx.
      destruct Hx as [<- | Hx]; [lia | auto].
Qed.

Lemma sort_by_sorted (l : list Voice) :
  StronglySorted (fun a b => s b <= s a)%nat (sort_by s l).
Proof.
  induction l as [|v l IH]; simpl; [constructor | now apply insert_by_sorted].
Qed.

(** Stability: voices of one score keep their order. *)
Lemma insert_by_stable (k : nat) (v : Voice) (l : list Voice) :
  StronglySorted (fun a b => s b <= s a)%nat l ->
  filter (fun x => s x =? k)%nat (insert_by s v l)
  = filter (fun x => s x =? k)%nat (v :: l).
Proof.
  induction 1 as [|u l Hl IH Hu]; [reflexivity|].
  cbn [insert_by]. destruct (s u <=? s v)%nat eqn:E; [reflexivity|].
  apply Nat.leb_gt in E. cbn [filter] in *. rewrite IH.
  destruct (s u =? k)%nat eqn:Eu, (s v =? k)%nat eqn:Ev; try reflexivity.
  apply Nat.eqb_eq in Eu, Ev. lia.
Qed.

Lemma sort_by_stable (k : nat) (l : list Voice) :
  filter (fun x => s x =? k)%nat (sort_by s l) = filter (fun x => s x =? k)%nat l.
Proof.
  induction l as [|v l IH]; [reflexivity|].
  cbn [sort_by]. rewrite insert_by_stable by apply sort_by_sorted.
  cbn [filter]. now rewrite IH.
Qed.

Lemma hd_insert_by (v : Voice) (l : list Voice) :
  hd_error (insert_by s v l)
  = match hd_error l with
    | None => Some v
    | Some u => if (s u <=? s v)%nat then Some v else Some u
    end.
Proof. destruct l as [|u l]; simpl; [reflexivity|]. now destruct (s u <=? s v)%nat. Qed.

Lemma hd_sort_by (l : list Voice) : hd_error (sort_by s l) = best s l.
Proof.
  induction l as [|v l IH]; [reflexivity|].
  cbn [sort_by best]. now rewrite hd_insert_by, IH.
Qed.

Lemma best_is_find (m : nat) (l : list Voice) :
  (forall v, In v l -> s v <= m)%nat ->
  (exists v, In v l /\ s v = m) ->
  best s l = find (fun v => s v =? m)%nat l.
Proof.
  induction l as [|v l IH]; intros Hle [u [Hu Hm]]; [contradiction|].
  cbn [best find].
  assert (Hle' : forall x, In x l -> (s x <= m)%nat) by (intros x Hx; apply Hle; now right).
  destruct (s v =? m)%nat eqn:Ev.
  - apply Nat.eqb_eq in Ev.
    destruct (best s l) as [b|] eqn:Eb; [|reflexivity].
    assert (Hb : In b l).
    { clear - Eb. revert b Eb. induction l as [|x l IHl]; [discriminate|].
      cbn [best]. intros b. destruct (best s l) as [c|].
      - destruct (s c <=? s x)%nat; intros E; injection E as <-; [now left|].
        right. now apply IHl.
      - intros E. injection E as <-. now left. }
    specialize (Hle' b Hb). destruct (s b <=? s v)%nat eqn:E; [reflexivity|].
    apply Nat.leb_gt in E. lia.
  - apply Nat.eqb_neq in Ev. destruct Hu as [<- | Hu]; [congruence|].
    rewrite IH by eauto.
    destruct (find (fun x => s x =? m)%nat l) as [b|] eqn:Ef.
    + apply find_some in Ef. destruct Ef as [_ Eb]. apply Nat.eqb_eq in Eb.
      assert (s v <= m)%nat by (apply Hle; now left).
      destruct (s b <=? s v)%nat eqn:E; [|reflexivity].
      apply Nat.leb_le in E. lia.
    + pose proof (find_none _ _ Ef u Hu) as Hn. simpl in Hn.
      apply Nat.eqb_neq in Hn. congruence.
Qed.

Lemma find_filter (p q : Voice -> bool) (l : list Voice) :
  find p (filter q l) = find (fun v => q v && p v) l.
Proof.
  induction l as [|v l IH]; [reflexivity|].
  cbn [filter find]. destruct (q v); simpl; [now rewrite IH | exact IH].
Qed.

Lemma find_ext_in (p q : Voice -> bool) (l : list Voice) :
  (forall v, In v l -> p v = q v) -> find p l = find q l.
Proof.
  induction l as [|v l IH]; intros H; [reflexivity|].
  cbn [find]. rewrite (H v (or_introl eq_refl)), IH; [reflexivity|].
  intros x Hx. apply H. now right.
Qed.

End SortBy.

Section ListVoices.

Import TextToSpeechService.

Variable voices : list Voice.
Variable lang : option string.

Let tag := mapLangToBCP47 lang.
Let sc := score tag (before_dash tag).

(** X16: [listVoicesForLanguage] lists exactly the loaded voices whose
    score is positive, each as often as it is loaded, by decreasing
    score; voices of one score keep the order they were loaded in. *)
Theorem listVoicesForLanguage_sorted :
  Permutation (listVoicesForLanguage voices lang)
              (filter (fun v => (0 <? sc v)%nat) voices)
  /\ StronglySorted (fun a b => sc b <= sc a)%nat
       (listVoicesForLanguage voices lang)
  /\ (forall k, (0 < k)%nat ->
        filter (fun v => sc v =? k)%nat (listVoicesForLanguage voices lang)
        = filter (fun v => sc v =? k)%nat voices).
Proof.
  unfold listVoicesForLanguage. fold tag. fold sc.
  split; [apply sort_by_perm|]. split; [apply sort_by_sorted|].
  intros k Hk. rewrite sort_by_stable.
  induction voices as [|v l IH]; [reflexivity|].
  cbn [filter]. destruct (0 <? sc v)%nat eqn:E; cbn [filter]; rewrite IH; [reflexivity|].
  apply Nat.ltb_ge in E. destruct (sc v =? k)%nat eqn:Ek; [|reflexivity].
  apply Nat.eqb_eq in Ek. lia.
Qed.

End ListVoices.

Section Membership.

Import TextToSpeechService.

Variable voices : list Voice.
Variable lang : option string.

Lemma score_language (tag : string) (v : Voice) :
  score tag (before_dash tag) v =
    let local := if localService v then 1 else 0 in
    if String.eqb (voice_language v) (JsString.toLowerCase tag) then 100 + local
    else if JsString.startsWith (voice_language v) (before_dash tag)
            && endsWith (voice_language v) "-in" then 80 + local
    else if JsString.startsWith (voice_language v) (before_dash tag) then 60 + local
    else if endsWith (voice_language v) "-in" then 40 + local
    else 0 + local.
Proof. reflexivity. Qed.

Lemma score_positive (tag : string) (v : Voice) :
  (0 <? score tag (before_dash tag) v)%nat = localService v || language_match tag v.
Proof.
  rewrite score_language. unfold language_match.
  destruct (localService v), (String.eqb _ _), (JsString.startsWith _ _),
    (endsWith _ _); reflexivity.
Qed.

(** X17: a loaded voice is listed for a language exactly when it is an
    on-device voice, whatever its language, or its language matches
    the language's tag (the same tag, the same base, or any [-in]
    region). *)
Theorem listVoicesForLanguage_members (v : Voice) :
  In v (listVoicesForLanguage voices lang) <->
  In v voices
  /\ (localService v = true
      \/ language_match (mapLangToBCP47 lang) v = true).
Proof.
  unfold listVoicesForLanguage.
  split.
  - intros H. apply (Permutation_in _ (sort_by_perm _ _)) in H.
    apply filter_In in H. rewrite score_positive, orb_true_iff in H. exact H.
  - intros H. apply (Permutation_in _ (Permutation_sym (sort_by_perm _ _))).
    apply filter_In. rewrite score_positive, orb_true_iff. exact H.
Qed.

End Membership.

(** ** The picked voice heads the list *)

Section PickAndList.

Import TextToSpeechService.

Variables E B I : Voice -> bool.

Let sc (v : Voice) : nat :=
  let local := if localService v then 1 else 0 in
  if E v then 100 + local
  else if B v && I v then 80 + local
  else if B v then 60 + local
  else if I v then 40 + local
  else 0 + local.

Let pick (voices : list Voice) : option Voice :=
  match or_else (find (fun voice => E voice && localService voice) voices)
                (find E voices) with
  | Some v => Some v
  | None =>
      match or_else (find (fun voice => B voice && I voice && localService voice) voices)
                    (find (fun voice => B voice && I voice) voices) with
      | Some v => Some v
      | None =>
          match or_else (find (fun voice => B voice && localService voice) voices)
                        (find B voices) with
          | Some v => Some v
          | None =>
              match or_else (find (fun voice => I voice && localService voice) voices)
                            (find I voices) with
              | Some v => Some v
              | None => or_else (find default voices) (hd_error voices)
              end
          end
      end
  end.

Ltac booleans x :=
  unfold sc;
  destruct (E x), (B x), (I x), (localService x);
  cbn in *; try discriminate; try reflexivity; try lia.

Ltac found m F :=
  let Hv := fresh "Hv" in
  let Hp := fresh "Hp" in
  simpl; rewrite <- F;
  apply find_some in F; destruct F as [Hv Hp];
  rewrite (best_is_find sc m);
  [ rewrite find_filter; symmetry; apply find_ext_in;
    let x := fresh "x" in let Hx := fresh "Hx" in
    intros x Hx;
    repeat match goal with
           | H : forall v, In v _ -> _ = false |- _ => specialize (H x Hx)
           end;
    booleans x
  | let x := fresh "x" in let Hx := fresh "Hx" in
    intros x Hx; apply filter_In in Hx; destruct Hx as [Hx _];
    repeat match goal with
           | H : forall v, In v _ -> _ = false |- _ => specialize (H x Hx)
           end;
    booleans x
  | match goal with
    | Hv : In ?v _, Hp : _ = true |- _ =>
        repeat match goal with
               | H : forall v, In v _ -> _ = false |- _ => specialize (H v Hv)
               end;
        exists v; split;
        [ apply filter_In; split; [exact Hv|]; booleans v | booleans v ]
    end ].

Lemma pick_is_best (voices : list Voice) :
  (exists u, In u voices /\ 40 <= sc u)%nat ->
  pick voices = best sc (filter (fun v => (0 <? sc v)%nat) voices).
Proof.
  intros [u [Hu H40]]. unfold pick.
  destruct (find (fun voice => E voice && localService voice) voices) as [v|] eqn:F1;
    [ found 101 F1 |].
  pose proof (find_none _ _ F1) as N1. clear F1. cbv beta in N1.
  destruct (find E voices) as [v|] eqn:F2; [ found 100 F2 |].
  pose proof (find_none _ _ F2) as N2. clear F2 N1.
  destruct (find (fun voice => B voice && I voice && localService voice) voices)
    as [v|] eqn:F3; [ found 81 F3 |].
  pose proof (find_none _ _ F3) as N3. clear F3. cbv beta in N3.
  destruct (find (fun voice => B voice && I voice) voices) as [v|] eqn:F4;
    [ found 80 F4 |].
  pose proof (find_none _ _ F4) as N4. clear F4 N3. cbv beta in N4.
  destruct (find (fun voice => B voice && localService voice) voices) as [v|] eqn:F5;
    [ found 61 F5 |].
  pose proof (find_none _ _ F5) as N5. clear F5. cbv beta in N5.
  destruct (find B voices) as [v|] eqn:F6; [ found 60 F6 |].
  pose proof (find_none _ _ F6) as N6. clear F6 N5 N4.
  destruct (find (fun voice => I voice && localService voice) voices) as [v|] eqn:F7;
    [ found 41 F7 |].
  pose proof (find_none _ _ F7) as N7. clear F7. cbv beta in N7.
  destruct (find I voices) as [v|] eqn:F8; [ found 40 F8 |].
  pose proof (find_none _ _ F8) as N8. clear F8 N7.
  exfalso. specialize (N2 u Hu). specialize (N6 u Hu). specialize (N8 u Hu).
  revert H40. booleans u.
Qed.

End PickAndList.

Section PickedHeadsList.

Import TextToSpeechService.

Lemma best_ext (s s' : Voice -> nat) (l : list Voice) :
  (forall v, s v = s' v) -> best s l = best s' l.
Proof.
  intros H. induction l as [|v l IH]; [reflexivity|].
  cbn [best]. rewrite IH. destruct (best s' l) as [u|]; [|reflexivity].
  now rewrite !H.
Qed.

Lemma language_match_score (tag : string) (v : Voice) :
  language_match tag v = true <-> (40 <= score tag (before_dash tag) v)%nat.
Proof.
  rewrite score_language. unfold language_match. cbv zeta.
  destruct (String.eqb _ _), (JsString.startsWith _ _), (endsWith _ _),
    (localService v); cbn; split; intros H; try reflexivity; try discriminate; lia.
Qed.

(** The score, with the tests written as [pickBestVoice] writes them. *)
Lemma score_as_picked (tag : string) (v : Voice) :
  In tag ["hi-IN"; "te-IN"; "ta-IN"; "en-IN"] ->
  (let local := if localService v then 1 else 0 in
   if lang_test (fun l => String.eqb l (JsString.toLowerCase tag)) v
   then 100 + local
   else if lang_test (fun l => JsString.startsWith l
                                 (before_dash (JsString.toLowerCase tag))) v
           && lang_test (fun l => endsWith l "-in") v
   then 80 + local
   else if lang_test (fun l => JsString.startsWith l
                                 (before_dash (JsString.toLowerCase tag))) v
   then 60 + local
   else if lang_test (fun l => endsWith l "-in") v then 40 + local
   else 0 + local)
  = score tag (before_dash tag) v.
Proof.
  intros [<- | [<- | [<- | [<- | []]]]];
    unfold score, lang_test; destruct (lang v) as [[|c s]|]; reflexivity.
Qed.

(** X18: when some loaded voice matches the language, the voice that
    [pickBestVoice] picks for the language's tag is the first voice of
    [listVoicesForLanguage]. *)
Theorem pickBestVoice_heads_list (voices : list Voice) (lang : option string) :
  (exists u, In u voices /\ language_match (mapLangToBCP47 lang) u = true) ->
  pickBestVoice voices (mapLangToBCP47 lang)
  = hd_error (listVoicesForLanguage voices lang).
Proof.
  intros [u [Hu Hm]].
  pose proof (mapLangToBCP47_range lang) as Htag.
  unfold listVoicesForLanguage. rewrite hd_sort_by.
  set (tag := mapLangToBCP47 lang) in *.
  apply language_match_score in Hm.
  unfold pickBestVoice. cbv zeta.
  rewrite (pick_is_best
             (lang_test (fun l => String.eqb l (JsString.toLowerCase tag)))
             (lang_test (fun l => JsString.startsWith l
                                    (before_dash (JsString.toLowerCase tag))))
             (lang_test (fun l => endsWith l "-in"))).
  - rewrite (filter_ext _ (fun v => (0 <? score tag (before_dash tag) v)%nat)).
    + apply best_ext. intros v. now apply score_as_picked.
    + intros v. f_equal. now apply score_as_picked.
  - exists u. split; [exact Hu|].
    rewrite (score_as_picked tag u Htag). exact Hm.
Qed.

End PickedHeadsList.

Lemma pickBestVoice_exact_sample :
  exists v,
    TextToSpeechService.pickBestVoice sample_voices "hi-IN" = Some v
    /\ In v sample_voices
    /\ TextToSpeechService.lang_test
         (fun l => String.eqb l (JsString.toLowerCase "hi-IN")) v = true
    /\ ((exists u, In u sample_voices
                   /\ TextToSpeechService.lang_test
                        (fun l => String.eqb l (JsString.toLowerCase "hi-IN")) u = true
                   /\ TextToSpeechService.localService u = true) ->
        TextToSpeechService.localService v = true).
Proof.
  apply (pickBestVoice_exact sample_voices "hi-IN").
  eexists. split; [right; left; reflexivity | reflexivity].
Defined.

Lemma pickBestVoice_heads_list_sample :
  TextToSpeechService.pickBestVoice sample_voices
    (TextToSpeechService.mapLangToBCP47 (Some "hi"))
  = hd_error (TextToSpeechService.listVoicesForLanguage sample_voices (Some "hi")).
Proof.
  apply (pickBestVoice_heads_list sample_voices (Some "hi")).
  eexists. split; [right; left; reflexivity | reflexivity].
Defined.

Example listVoicesForLanguage_sample :
  map TextToSpeechService.voiceURI
      (TextToSpeechService.listVoicesForLanguage sample_voices (Some "hi"))
  = ["urn:hi-local"; "urn:hi-remote"; "urn:fr"].
Proof. reflexivity. Qed.

(** ** The choice of voice *)

(** X19: after [setPreferredVoice(lang, uri)] with the URI of a loaded
    voice, [speak] without an explicit voice, in any language that
    maps to the same tag, chooses a loaded voice that goes by that URI. *)
Theorem preferred_voice_is_chosen
    (voices : list TextToSpeechService.Voice)
    (prefs : TextToSpeechService.Preferences)
    (lang : string) (lang' : option string) (uri : string)
    (v : TextToSpeechService.Voice) :
  TextToSpeechService.mapLangToBCP47 lang'
  = TextToSpeechService.mapLangToBCP47 (Some lang) ->
  uri <> "" ->
  In v voices ->
  TextToSpeechService.voiceURI v = uri ->
  exists v',
    chosen_voice voices
      (TextToSpeechService.setPreferredVoice prefs lang (Some uri)) None lang'
    = Some v'
    /\ In v' voices
    /\ (TextToSpeechService.voiceURI v' = uri \/ TextToSpeechService.name v' = uri).
Proof.
  intros Htag Huri Hin Hv.
  unfold chosen_voice, TextToSpeechService.resolvePreferredVoice,
    TextToSpeechService.setPreferredVoice.
  rewrite Htag, String.eqb_refl. cbn [TextToSpeechService.or_else truthy_string].
  destruct uri as [|c uri]; [congruence|]. cbn [JsString.truthy].
  destruct (find _ voices) as [v'|] eqn:F.
  - exists v'. apply find_some in F. destruct F as [Hv' Hp].
    apply orb_true_iff in Hp. rewrite !String.eqb_eq in Hp. auto.
  - pose proof (find_none _ _ F v Hin) as Hn. cbv beta in Hn.
    rewrite Hv, String.eqb_refl in Hn. discriminate.
Qed.

Lemma preferred_voice_is_chosen_sample :
  exists v',
    chosen_voice sample_voices
      (TextToSpeechService.setPreferredVoice (fun _ => None) "hi" (Some "urn:hi-remote"))
      None (Some "HI-IN")
    = Some v'
    /\ In v' sample_voices
    /\ (TextToSpeechService.voiceURI v' = "urn:hi-remote"
        \/ TextToSpeechService.name v' = "urn:hi-remote").
Proof.
  apply (preferred_voice_is_chosen sample_voices (fun _ => None) "hi" (Some "HI-IN")
           "urn:hi-remote"
           {| TextToSpeechService.voiceURI := "urn:hi-remote";
              TextToSpeechService.name := "Google Hindi";
              TextToSpeechService.lang := Some "hi-IN";
              TextToSpeechService.localService := false;
              TextToSpeechService.default := false |});
    [ reflexivity | discriminate | right; left; reflexivity | reflexivity ].
Defined.

(** ** The status card *)

Ltac unfold_status :=
  unfold ConnectionStatus.checkConnection, ConnectionStatus.probe,
    ConnectionStatus.updateConnectionState, ConnectionStatus.set_checking,
    HybridChatService.healthCheck,
    Date_now, new_Date_toISOString, console_log, console_error,
    settled, perform, try_catch, bind, ret.

Lemma health_probes_app (h l : History) :
  health_probes (h ++ l)%list = health_probes h + health_probes l.
Proof.
  induction h as [|e h IH]; [reflexivity|].
  destruct e; simpl; rewrite IH; reflexivity.
Qed.

Ltac projections :=
  cbn [fst snd
       ConnectionStatus.lastHealthCheckRef ConnectionStatus.lastGoodRef
       ConnectionStatus.consecutiveFailuresRef ConnectionStatus.isConnected
       ConnectionStatus.isChecking ConnectionStatus.error
       ConnectionStatus.lastChecked ConnectionStatus.datasetConnected
       ConnectionStatus.geminiConnected ConnectionStatus.notified
       ConnectionStatus.result ConnectionStatus.taken].

(** What one [updateConnectionState] does. *)
Lemma update_post (data : option HealthData) (st : ConnectionStatus.State)
    (w : World) (h : History) :
  exists st' h',
    ConnectionStatus.updateConnectionState data st w h = (Fulfilled st', h')
    /\ health_probes h' = health_probes h
    /\ ConnectionStatus.lastHealthCheckRef st' = ConnectionStatus.lastHealthCheckRef st
    /\ ConnectionStatus.isChecking st' = ConnectionStatus.isChecking st
    /\ ConnectionStatus.notified st' = (ConnectionStatus.notified st ++ [any_up data])%list
    /\ ConnectionStatus.isConnected st'
       = Some (ConnectionStatus.datasetConnected st' || ConnectionStatus.geminiConnected st')
    /\ ConnectionStatus.consecutiveFailuresRef st'
       = (if any_up data then 0 else S (ConnectionStatus.consecutiveFailuresRef st))
    /\ ConnectionStatus.error st'
       = (if negb (any_up data)
             && (2 <=? ConnectionStatus.consecutiveFailuresRef st')%nat
          then Some ConnectionStatus.none_available else None)
    /\ (any_up data = true ->
        ConnectionStatus.datasetConnected st' = ConnectionStatus.dataset_up data
        /\ ConnectionStatus.geminiConnected st' = ConnectionStatus.gemini_up data
        /\ exists t, ConnectionStatus.lastGoodRef st'
                     = Some {| ConnectionStatus.result := data;
                               ConnectionStatus.taken := t |})
    /\ (any_up data = false ->
        ConnectionStatus.lastGoodRef st' = ConnectionStatus.lastGoodRef st
        /\ ((ConnectionStatus.datasetConnected st' = false
             /\ ConnectionStatus.geminiConnected st' = false)
            \/ (ConnectionStatus.consecutiveFailuresRef st = 0
                /\ exists good,
                     ConnectionStatus.lastGoodRef st = Some good
                     /\ ConnectionStatus.datasetConnected st'
                        = ConnectionStatus.dataset_up (ConnectionStatus.result good)
                     /\ ConnectionStatus.geminiConnected st'
                        = ConnectionStatus.gemini_up (ConnectionStatus.result good)))).
Proof.
  unfold ConnectionStatus.updateConnectionState, any_up,
    Date_now, new_Date_toISOString, console_log, perform, bind, ret.
  destruct (ConnectionStatus.dataset_up data || ConnectionStatus.gemini_up data) eqn:Up.
  - eexists. eexists. split; [reflexivity|]. projections.
    rewrite !health_probes_app. cbn [health_probes]. rewrite Up.
    repeat split; try reflexivity; try lia; try discriminate.
    + change (ConnectionStatus.FAIL_THRESHOLD <=? 0)%nat with false.
      now rewrite andb_false_r.
    + eexists. reflexivity.
  - apply orb_false_iff in Up. destruct Up as [Ud Ug].
    destruct (ConnectionStatus.lastGoodRef st) as [good|] eqn:Eg.
    + eexists. eexists. split; [reflexivity|]. projections.
      rewrite !health_probes_app. cbn [health_probes]. rewrite Ud, Ug.
      cbn [negb andb orb].
      repeat split; try reflexivity; try lia; try discriminate.
      destruct (ConnectionStatus.consecutiveFailuresRef st) as [|n].
      * cbn [Nat.ltb Nat.leb ConnectionStatus.FAIL_THRESHOLD andb].
        destruct (PrimFloat.ltb _ _).
        -- right. split; [reflexivity|]. exists good. repeat split.
        -- left. split; reflexivity.
      * left. change (S (S n) <? ConnectionStatus.FAIL_THRESHOLD)%nat with false.
        split; reflexivity.
    + eexists. eexists. split; [reflexivity|]. projections.
      rewrite !health_probes_app. cbn [health_probes]. rewrite Ud, Ug.
      cbn [negb andb orb]. rewrite andb_false_r. cbn.
      repeat split; try reflexivity; try lia; try discriminate.
Qed.

(** One [probe] is two health probes, one [updateConnectionState] on
    what they say, and [setIsChecking(false)]. *)
Lemma probe_run (st : ConnectionStatus.State) (w : World) (h : History) :
  exists data s1 h1,
    health_probes h1 = 2 + health_probes h
    /\ ConnectionStatus.lastGoodRef s1 = ConnectionStatus.lastGoodRef st
    /\ ConnectionStatus.consecutiveFailuresRef s1
       = ConnectionStatus.consecutiveFailuresRef st
    /\ ConnectionStatus.notified s1 = ConnectionStatus.notified st
    /\ forall st' h',
         ConnectionStatus.updateConnectionState data s1 w h1 = (Fulfilled st', h') ->
         ConnectionStatus.probe st w h
         = (Fulfilled (ConnectionStatus.set_checking false st'), h').
Proof.
  unfold ConnectionStatus.probe, HybridChatService.healthCheck,
    try_catch, console_log, settled, perform, new_Date_toISOString, Date_now,
    bind, ret.
  cbn -[ConnectionStatus.updateConnectionState].
  eexists. eexists. eexists. split; [|split; [|split; [|split]]].
  5: { intros st' h' E. rewrite E. reflexivity. }
  - rewrite !health_probes_app. cbn [health_probes]. lia.
  - reflexivity.
  - reflexivity.
  - reflexivity.
Qed.

Lemma update_consistent (data : option HealthData) (st : ConnectionStatus.State)
    (w : World) (h : History) :
  exists st' h',
    ConnectionStatus.updateConnectionState data st w h = (Fulfilled st', h')
    /\ consistent st'
    /\ ConnectionStatus.notified st'
       = (ConnectionStatus.notified st ++ [any_up data])%list.
Proof.
  destruct (update_post data st w h)
    as [st' [h' [E [_ [_ [_ [Hn [Hc [Hf [He [Hup Hdown]]]]]]]]]]].
  exists st', h'. split; [exact E|]. split; [split; [exact Hc|]|exact Hn].
  rewrite He. destruct (any_up data) eqn:Up; [intros H; now contradiction H|].
  cbn [negb andb]. destruct (2 <=? _)%nat eqn:E2; [|intros H; now contradiction H].
  intros _. rewrite Hc. f_equal.
  destruct (Hdown eq_refl) as [_ [[-> ->] | [H0 _]]]; [reflexivity|].
  rewrite Hf, H0 in E2. discriminate.
Qed.

(** X20: whatever state it starts from and whatever the probes answer,
    [checkConnection] throws nothing, notifies the parent once, and
    leaves a consistent card: the status is online exactly when one of
    the two flags is set, and an error banner only shows with the
    offline status. *)
Theorem checkConnection_consistent (w : World) (h : History) (forceRefresh : bool)
    (st : ConnectionStatus.State) :
  exists st' up,
    left_by (ConnectionStatus.checkConnection forceRefresh st w h) = Some st'
    /\ consistent st'
    /\ ConnectionStatus.notified st' = (ConnectionStatus.notified st ++ [up])%list.
Proof.
  assert (Hprobe : forall h1, exists st' up,
            left_by (ConnectionStatus.probe st w h1) = Some st'
            /\ consistent st'
            /\ ConnectionStatus.notified st'
               = (ConnectionStatus.notified st ++ [up])%list).
  { intros h1. destruct (probe_run st w h1) as [data [s1 [h2 [_ [_ [_ [Hn Hrun]]]]]]].
    destruct (update_consistent data s1 w h2) as [st' [h' [E [Hc Hn']]]].
    exists (ConnectionStatus.set_checking false st'), (any_up data).
    unfold left_by. rewrite (Hrun _ _ E). split; [reflexivity|].
    split; [exact Hc|]. cbn [ConnectionStatus.set_checking ConnectionStatus.notified].
    now rewrite Hn', Hn. }
  unfold ConnectionStatus.checkConnection.
  destruct forceRefresh; cbn [negb]; [apply Hprobe|].
  destruct (ConnectionStatus.lastHealthCheckRef st) as [cached|]; [|apply Hprobe].
  unfold bind at 1, Date_now, perform.
  destruct (PrimFloat.ltb _ _); [|apply Hprobe].
  unfold bind, console_log, perform, left_by.
  match goal with
  | |- context [ConnectionStatus.updateConnectionState ?d ?s ?w0 ?h0] =>
      destruct (update_consistent d s w0 h0) as [st' [h' [E [Hc Hn]]]]; rewrite E
  end.
  exists st', (any_up (ConnectionStatus.result cached)).
  split; [reflexivity|]. split; assumption.
Qed.

(** X21: the grace period.  After a good result less than five minutes
    old, the first failing result leaves the card online, with the
    flags of that good result and no error banner, while the parent is
    told the connection is lost. *)
Theorem updateConnectionState_grace (w : World) (h : History)
    (st : ConnectionStatus.State) (good : ConnectionStatus.Snapshot)
    (data : option HealthData) :
  ConnectionStatus.lastGoodRef st = Some good ->
  any_up (ConnectionStatus.result good) = true ->
  ConnectionStatus.consecutiveFailuresRef st = 0 ->
  any_up data = false ->
  (forall h', (clock_ms w h' - ConnectionStatus.taken good <? 5 * 60 * 1000)%float
              = true) ->
  exists st',
    left_by (ConnectionStatus.updateConnectionState data st w h) = Some st'
    /\ ConnectionStatus.isConnected st' = Some true
    /\ ConnectionStatus.datasetConnected st'
       = ConnectionStatus.dataset_up (ConnectionStatus.result good)
    /\ ConnectionStatus.geminiConnected st'
       = ConnectionStatus.gemini_up (ConnectionStatus.result good)
    /\ ConnectionStatus.error st' = None
    /\ ConnectionStatus.consecutiveFailuresRef st' = 1
    /\ ConnectionStatus.notified st' = (ConnectionStatus.notified st ++ [false])%list.
Proof.
  intros Hgood Hup Hzero Hdown Hclock.
  unfold ConnectionStatus.updateConnectionState, left_by,
    Date_now, new_Date_toISOString, console_log, perform, bind, ret.
  unfold any_up in Hdown. rewrite Hdown, Hgood, Hzero.
  apply orb_false_iff in Hdown. destruct Hdown as [Hd Hg].
  cbn [fst snd]. rewrite Hclock.
  change (1 <? ConnectionStatus.FAIL_THRESHOLD)%nat with true. cbn [andb].
  eexists. split; [reflexivity|]. projections. rewrite Hd, Hg.
  repeat split. f_equal. exact Hup.
Qed.

(** X22: two failing results in a row leave the card offline, both
    flags down, with the error banner, whatever came before. *)
Theorem two_failures_offline (w : World) (h : History)
    (st : ConnectionStatus.State) (data data' : option HealthData) :
  any_up data = false ->
  any_up data' = false ->
  exists st1 h1 st2,
    ConnectionStatus.updateConnectionState data st w h = (Fulfilled st1, h1)
    /\ left_by (ConnectionStatus.updateConnectionState data' st1 w h1) = Some st2
    /\ ConnectionStatus.isConnected st2 = Some false
    /\ ConnectionStatus.datasetConnected st2 = false
    /\ ConnectionStatus.geminiConnected st2 = false
    /\ ConnectionStatus.error st2 = Some ConnectionStatus.none_available.
Proof.
  intros Hdown Hdown'.
  destruct (update_post data st w h)
    as [st1 [h1 [E1 [_ [_ [_ [_ [_ [Hf1 _]]]]]]]]].
  destruct (update_post data' st1 w h1)
    as [st2 [h2 [E2 [_ [_ [_ [_ [Hc2 [Hf2 [He2 [_ Hd2]]]]]]]]]]].
  rewrite Hdown in Hf1. rewrite Hdown' in Hf2, He2.
  exists st1, h1, st2. split; [exact E1|]. unfold left_by. rewrite E2.
  split; [reflexivity|].
  destruct (Hd2 Hdown') as [_ [[Hd Hg] | [H0 _]]]; [|rewrite Hf1 in H0; discriminate].
  rewrite Hc2, Hd, Hg, He2, Hf2, Hf1. repeat split.
Qed.

Lemma updateConnectionState_grace_sample :
  exists st',
    left_by (ConnectionStatus.updateConnectionState all_down healthy_card
               Samples.offline []) = Some st'
    /\ ConnectionStatus.isConnected st' = Some true
    /\ ConnectionStatus.datasetConnected st' = true
    /\ ConnectionStatus.geminiConnected st' = true
    /\ ConnectionStatus.error st' = None
    /\ ConnectionStatus.consecutiveFailuresRef st' = 1
    /\ ConnectionStatus.notified st' = [true; false].
Proof.
  apply (updateConnectionState_grace Samples.offline [] healthy_card
           {| ConnectionStatus.result :=
                Some {| dataset_backend := true; gemini_api := true;
                        hybrid_mode := true |};
              ConnectionStatus.taken := 1699999900000%float |} all_down);
    intros; reflexivity.
Defined.

Lemma two_failures_offline_sample :
  exists st1 h1 st2,
    ConnectionStatus.updateConnectionState all_down healthy_card Samples.offline []
    = (Fulfilled st1, h1)
    /\ left_by (ConnectionStatus.updateConnectionState all_down st1 Samples.offline h1)
       = Some st2
    /\ ConnectionStatus.isConnected st2 = Some false
    /\ ConnectionStatus.datasetConnected st2 = false
    /\ ConnectionStatus.geminiConnected st2 = false
    /\ ConnectionStatus.error st2 = Some ConnectionStatus.none_available.
Proof.
  apply (two_failures_offline Samples.offline [] healthy_card all_down all_down);
    reflexivity.
Defined.

(** X23: a forced check, and a check without a cached result, probe
    both backends.  A check that finds a cached result less than a
    minute old probes nothing and applies the cached result again,
    which counts as one more failure when that result had no backend
    up. *)
Theorem checkConnection_cache (w : World) (h : History) (forceRefresh : bool)
    (st : ConnectionStatus.State) :
  exists st' h',
    ConnectionStatus.checkConnection forceRefresh st w h = (Fulfilled st', h')
    /\ match (if negb forceRefresh
              then ConnectionStatus.lastHealthCheckRef st else None) with
       | Some cached =>
           if (clock_ms w h - ConnectionStatus.taken cached
               <? ConnectionStatus.CACHE_DURATION)%float
           then health_probes h' = health_probes h
                /\ ConnectionStatus.consecutiveFailuresRef st'
                   = (if any_up (ConnectionStatus.result cached)
                      then 0 else S (ConnectionStatus.consecutiveFailuresRef st))
           else health_probes h' = 2 + health_probes h
       | None => health_probes h' = 2 + health_probes h
       end.
Proof.
  assert (Hprobe : forall h1, exists st' h',
            ConnectionStatus.probe st w h1 = (Fulfilled st', h')
            /\ health_probes h' = 2 + health_probes h1).
  { intros h1. destruct (probe_run st w h1) as [data [s1 [h2 [Hh [_ [_ [_ Hrun]]]]]]].
    destruct (update_post data s1 w h2) as [st' [h' [E [Hp _]]]].
    eexists. eexists. split; [apply (Hrun _ _ E)|]. now rewrite Hp. }
  unfold ConnectionStatus.checkConnection.
  destruct (if negb forceRefresh then ConnectionStatus.lastHealthCheckRef st else None)
    as [cached|]; [|apply Hprobe].
  unfold bind at 1, Date_now, perform.
  destruct (PrimFloat.ltb _ _).
  - unfold bind, console_log, perform.
    match goal with
    | |- context [ConnectionStatus.updateConnectionState ?d ?s ?w0 ?h0] =>
        destruct (update_post d s w0 h0)
          as [st' [h' [E [Hp [_ [_ [_ [_ [Hf _]]]]]]]]]
    end.
    exists st', h'. split; [exact E|]. split; [|exact Hf].
    rewrite Hp, !health_probes_app. cbn [health_probes]. lia.
  - destruct (Hprobe (h ++ [EvDateNow])%list) as [st' [h' [E Hp]]].
    exists st', h'. split; [exact E|].
    rewrite Hp, health_probes_app. cbn [health_probes]. lia.
Qed.

(** X24: the last good result never holds a result without a backend
    up: this is so at the start and every [checkConnection] keeps it. *)
Theorem lastGood_is_up (w : World) (h : History) (forceRefresh : bool)
    (st st' : ConnectionStatus.State) :
  good_is_up st ->
  left_by (ConnectionStatus.checkConnection forceRefresh st w h) = Some st' ->
  good_is_up st'.
Proof.
  intros Hinv.
  assert (Hupd : forall data s0 w0 h0 s1 h1,
            good_is_up s0 ->
            ConnectionStatus.updateConnectionState data s0 w0 h0 = (Fulfilled s1, h1) ->
            good_is_up s1).
  { intros data s0 w0 h0 s1 h1 H0 E.
    destruct (update_post data s0 w0 h0)
      as [s1' [h1' [E' [_ [_ [_ [_ [_ [_ [_ [Hup Hdown]]]]]]]]]]].
    rewrite E in E'. injection E' as <- <-.
    destruct (any_up data) eqn:Up.
    - destruct (Hup eq_refl) as [_ [_ [t Ht]]]. intros good Hg.
      rewrite Ht in Hg. injection Hg as <-. exact Up.
    - destruct (Hdown eq_refl) as [Hsame _]. intros good Hg.
      rewrite Hsame in Hg. now apply H0. }
  assert (Hprobe : forall h1 s2,
            left_by (ConnectionStatus.probe st w h1) = Some s2 -> good_is_up s2).
  { intros h1 s2. destruct (probe_run st w h1) as [data [s1 [h2 [_ [Hg [_ [_ Hrun]]]]]]].
    destruct (update_post data s1 w h2) as [s1' [h' [E _]]].
    unfold left_by. rewrite (Hrun _ _ E). cbn [fst]. intros H. injection H as <-.
    assert (H1 : good_is_up s1) by (intros good; rewrite Hg; apply Hinv).
    pose proof (Hupd _ _ _ _ _ _ H1 E) as H2.
    intros good. cbn [ConnectionStatus.set_checking ConnectionStatus.lastGoodRef].
    apply H2. }
  unfold ConnectionStatus.checkConnection.
  destruct (if negb forceRefresh then ConnectionStatus.lastHealthCheckRef st else None)
    as [cached|]; [|apply Hprobe].
  unfold bind at 1, Date_now, perform.
  destruct (PrimFloat.ltb _ _); [|apply Hprobe].
  unfold bind, console_log, perform, left_by.
  match goal with
  | |- context [ConnectionStatus.updateConnectionState ?d ?s ?w0 ?h0] =>
      destruct (update_post d s w0 h0) as [s1 [h1 [E _]]]; rewrite E
  end.
  cbn [fst]. intros H. injection H as <-. apply (Hupd _ _ _ _ _ _ Hinv E).
Qed.

Lemma lastGood_is_up_first_check :
  good_is_up
    (match fst (ConnectionStatus.checkConnection true ConnectionStatus.initial
                  Samples.dataset_only []) with
     | Fulfilled s => s
     | Rejected _ => ConnectionStatus.initial
     end).
Proof.
  apply (lastGood_is_up Samples.dataset_only [] true ConnectionStatus.initial).
  - intros good H. discriminate.
  - reflexivity.
Defined.

Example first_check_dataset_only :
  option_map ConnectionStatus.getStatusText
    (left_by (ConnectionStatus.checkConnection false ConnectionStatus.initial
                Samples.dataset_only []))
  = Some "Dataset Only".
Proof. reflexivity. Qed.

(** X25: on a consistent card that is not checking, the text reads
    [Disconnected] exactly when the colour is the destructive one, and
    [Unknown] is never shown. *)
Theorem status_text_matches_color (st : ConnectionStatus.State) :
  consistent st ->
  ConnectionStatus.isChecking st = false ->
  (ConnectionStatus.getStatusText st = "Disconnected" <->
   ConnectionStatus.getStatusColor st = "destructive")
  /\ ConnectionStatus.getStatusText st <> "Unknown".
Proof.
  intros [Hc _] Hk. unfold ConnectionStatus.getStatusText, ConnectionStatus.getStatusColor.
  rewrite Hk, Hc.
  destruct (ConnectionStatus.datasetConnected st), (ConnectionStatus.geminiConnected st);
    cbn; split; try discriminate; split; try discriminate; reflexivity.
Qed.

Lemma status_text_matches_color_sample :
  (ConnectionStatus.getStatusText healthy_card = "Disconnected" <->
   ConnectionStatus.getStatusColor healthy_card = "destructive")
  /\ ConnectionStatus.getStatusText healthy_card <> "Unknown".
Proof.
  apply (status_text_matches_color healthy_card); [|reflexivity].
  split; [reflexivity | intros H; now contradiction H].
Defined.
